(** * The failed-check notification pipeline

    A shallow embedding of [app/src/lib/stores/notifications-store.ts]
    (class [NotificationsStore]) and the properties of it that the
    specification states.

    The store is an object with four mutable fields whose methods are partly
    asynchronous.  A method is embedded as a [Task]: a tree of the
    operations it performs on the store's fields and on its collaborators,
    in program order.  Code between two [await]s runs without interruption;
    at an [await] the method is suspended and other code (a call of one of
    the store's public methods by the application) may run before it is
    resumed.  [run] executes a task against a [World] that answers the
    collaborator calls and a [Schedule] that says what the application does
    at each suspension. *)

From Stdlib Require Import ZArith Ascii String List Bool.
From stdpp Require Import gmap strings list pretty.

Set Default Proof Using "Type".

(** ** Models the store imports *)

(** Modelled from the spec: [models/github-repository] is not among the
    sources.  The store reads [endpoint], [owner.login] and [name], the
    "linked remote-repository identity (owner/name/endpoint)" of §3. *)
Module GitHubRepository.
Record Owner := { login : string }.
Record t := { endpoint : string; owner : Owner; name : string }.
End GitHubRepository.
Abbreviation GitHubRepository := GitHubRepository.t.

(** Modelled from the spec: [models/repository] is not among the sources.
    A repository may or may not carry a linked remote repository. *)
Module Repository.
Record t := { gitHubRepository : option GitHubRepository }.
End Repository.
Abbreviation Repository := Repository.t.

(** The narrowed type [Repository & { gitHubRepository: GitHubRepository }]. *)
Module RepositoryWithGitHubRepository.
Record t := { gitHubRepository : GitHubRepository }.
End RepositoryWithGitHubRepository.
Abbreviation RepositoryWithGitHubRepository := RepositoryWithGitHubRepository.t.

(** Modelled from the spec: the type guard of [models/repository], which is
    not among the sources; §3: "a repository lacking that identity is
    treated as no selection".  [Some r] stands for [true] together with the
    argument at its narrowed type, [None] for [false]. *)
Definition isRepositoryWithGitHubRepository (repository : Repository)
  : option RepositoryWithGitHubRepository :=
  match Repository.gitHubRepository repository with
  | Some gh => Some {| RepositoryWithGitHubRepository.gitHubRepository := gh |}
  | None => None
  end.

(** Modelled from the spec: [models/pull-request] is not among the sources;
    §3: "number, head branch ref, title".  The number is an integer, which
    a template literal prints in decimal. *)
Module PullRequest.
Record Ref := { ref : string }.
Record t := { pullRequestNumber : Z; title : string; head : Ref }.
End PullRequest.
Abbreviation PullRequest := PullRequest.t.

(** Modelled from the spec: [models/commit] is not among the sources; §3:
    "identifier (SHA), author email, summary line". *)
Module Commit.
Record Identity := { email : string }.
Record t := { sha : string; author : Identity; summary : string }.
End Commit.
Abbreviation Commit := Commit.t.

(** Modelled from the spec: the account model is not among the sources; §6:
    [Account{endpoint, emails:[{email}]}]. *)
Module Account.
Record Email := { email : string }.
Record t := { endpoint : string; emails : list Email }.
End Account.
Abbreviation Account := Account.t.

(** [API.fromAccount(account)]: the REST client of an account. *)
Module API.
Record t := fromAccount { account : Account }.
End API.
Abbreviation API := API.t.

(** Modelled from the spec: the enumeration is declared in [lib/api], which
    is not among the sources; these are the conclusions the spec names
    (§4.4, glossary). *)
Module APICheckConclusion.
Inductive t := Failure | Success | Neutral | Cancelled | Skipped.

#[global] Instance eq_dec : EqDecision t.
Proof. solve_decision. Defined.
End APICheckConclusion.
Abbreviation APICheckConclusion := APICheckConclusion.t.

(** Modelled from the spec: [IRefCheck] is declared in
    [lib/ci-checks/ci-checks], which is not among the sources; §3: "name,
    status/conclusion".  A check that has not concluded has conclusion
    [null]. *)
Module IRefCheck.
Record t := { name : string; conclusion : option APICheckConclusion }.
End IRefCheck.
Abbreviation IRefCheck := IRefCheck.t.

(** Modelled from the spec: the result type of
    [createCombinedCheckFromChecks]; §3: "the aggregate of all RefChecks for
    a ref, with an overall conclusion". *)
Module ICombinedRefCheck.
Record t := { conclusion : option APICheckConclusion; checks : list IRefCheck }.
End ICombinedRefCheck.
Abbreviation ICombinedRefCheck := ICombinedRefCheck.t.

(** The helpers the store imports from [lib/ci-checks/ci-checks], which is
    not among the sources, over the two kinds of entry the REST layer
    returns ([lib/api], not among the sources either).  They are parameters
    of the development. *)
Class CIChecks (APIRefStatusItem APIRefCheckRun : Type) : Type := {
  apiStatusToRefCheck : APIRefStatusItem -> IRefCheck;
  apiCheckRunToRefCheck : APIRefCheckRun -> IRefCheck;
  getLatestCheckRunsByName : list APIRefCheckRun -> list APIRefCheckRun;
  worstConclusion : list IRefCheck -> option APICheckConclusion
}.

(** Modelled from the spec: [createCombinedCheckFromChecks] lives in
    [lib/ci-checks/ci-checks], which is not among the sources.  §3: "the
    aggregate of all RefChecks for a ref, with an overall conclusion derived
    from the worst individual conclusion"; §4.4: an empty list is "a null
    result (no signal)". *)
Definition createCombinedCheckFromChecks
    `{CIChecks APIRefStatusItem APIRefCheckRun} (checks : list IRefCheck)
  : option ICombinedRefCheck :=
  match checks with
  | [] => None
  | _ :: _ =>
      Some {| ICombinedRefCheck.conclusion := worstConclusion checks;
              ICombinedRefCheck.checks := checks |}
  end.

(** Modelled from the spec: the events of [alive-store], which is not among
    the sources.  §3: "a tagged union of real-time event kinds"; the
    checks-failed variant carries the pull request number and the commit
    SHA. *)
Record IDesktopChecksFailedAliveEvent := {
  pull_request_number : Z;
  commit_sha : string
}.

(** An event object as the store receives it: its kind is the string under
    [type]; [asChecksFailed] is the object read at the type
    [IDesktopChecksFailedAliveEvent], which the store does only under the
    tag of that kind. *)
Module DesktopAliveEvent.
Record t := { type : string; asChecksFailed : IDesktopChecksFailedAliveEvent }.
End DesktopAliveEvent.
Abbreviation DesktopAliveEvent := DesktopAliveEvent.t.

(** ** The store object *)

(** The arguments of [OnChecksFailedCallback]. *)
Record ChecksFailedArgs := {
  arg_repository : RepositoryWithGitHubRepository;
  arg_pullRequest : PullRequest;
  arg_commitMessage : string;
  arg_commitSha : string;
  arg_checkRuns : list IRefCheck
}.

(** A registered observer is a function of the application; the store only
    keeps it and calls it, so it is identified by a handle. *)
Inductive OnChecksFailedCallback := Observer (handle : nat).

(** [new remote.Notification({ title, body })] with the closure registered
    by [notification.on('click', ...)]: the variables the closure captured. *)
Record Notification := {
  title : string;
  body : string;
  onClick : ChecksFailedArgs
}.

(** The private fields of [NotificationsStore]. *)
Record NotificationsStore := {
  repository : option RepositoryWithGitHubRepository;
  onChecksFailedCallback : option OnChecksFailedCallback;
  cachedCommits : gmap string Commit;
  skipCommitShas : gset string
}.

(** The object the constructor's field initialisers build. *)
Definition newStore : NotificationsStore :=
  {| repository := None; onChecksFailedCallback := None;
     cachedCommits := ∅; skipCommitShas := ∅ |}.

(** Field assignments. *)
Definition set_repository (r : option RepositoryWithGitHubRepository)
    (this : NotificationsStore) : NotificationsStore :=
  {| repository := r;
     onChecksFailedCallback := onChecksFailedCallback this;
     cachedCommits := cachedCommits this;
     skipCommitShas := skipCommitShas this |}.

Definition set_onChecksFailedCallback (cb : option OnChecksFailedCallback)
    (this : NotificationsStore) : NotificationsStore :=
  {| repository := repository this;
     onChecksFailedCallback := cb;
     cachedCommits := cachedCommits this;
     skipCommitShas := skipCommitShas this |}.

(** [this.cachedCommits.set(sha, commit)] *)
Definition cachedCommits_set (sha : string) (commit : Commit)
    (this : NotificationsStore) : NotificationsStore :=
  {| repository := repository this;
     onChecksFailedCallback := onChecksFailedCallback this;
     cachedCommits := <[sha := commit]> (cachedCommits this);
     skipCommitShas := skipCommitShas this |}.

(** [this.skipCommitShas.add(sha)] *)
Definition skipCommitShas_add (sha : string)
    (this : NotificationsStore) : NotificationsStore :=
  {| repository := repository this;
     onChecksFailedCallback := onChecksFailedCallback this;
     cachedCommits := cachedCommits this;
     skipCommitShas := {[sha]} ∪ skipCommitShas this |}.

(** ** Tasks: the operations of a method, in program order *)

Section Store.

Context {APIRefStatusItem APIRefCheckRun : Type}.

(** The calls the store awaits.  [PromiseAll] is [Promise.all] of two
    calls: both are issued, and the method resumes when both have
    answered. *)
Inductive Call : Type :=
| getAllPullRequests (repository : RepositoryWithGitHubRepository)
    (* pullRequestCoordinator.getAllPullRequests(repository) *)
| accountsStore_getAll
    (* accountsStore.getAll() *)
| getCommit (repository : RepositoryWithGitHubRepository) (sha : string)
    (* getCommit(repository, sha) of lib/git *)
| fetchCombinedRefStatus (api : API) (owner name ref : string)
| fetchRefCheckRuns (api : API) (owner name ref : string)
| PromiseAll (c1 c2 : Call).

(** What a call resolves to.  Of the two REST answers only the field the
    store reads is kept: [statuses] and [check_runs]; [None] is [null]. *)
Fixpoint Resp (c : Call) : Type :=
  match c with
  | getAllPullRequests _ => list PullRequest
  | accountsStore_getAll => list Account
  | getCommit _ _ => option Commit
  | fetchCombinedRefStatus _ _ _ _ => option (list APIRefStatusItem)
  | fetchRefCheckRuns _ _ _ _ => option (list APIRefCheckRun)
  | PromiseAll c1 c2 => (Resp c1 * Resp c2)%type
  end.

(** Synchronous effects on the collaborators. *)
Inductive Effect : Type :=
| show (notification : Notification)          (* notification.show() *)
| setBoolean (key : string) (value : bool)    (* lib/local-storage *)
| aliveStore_setEnabled (enabled : bool)
| aliveStore_onAliveEventReceived             (* subscribes the handler *)
| invoke (callback : OnChecksFailedCallback) (args : ChecksFailedArgs).

Inductive Task (A : Type) : Type :=
| Ret (a : A)
| Read (k : NotificationsStore -> Task A)
| Update (f : NotificationsStore -> NotificationsStore) (k : Task A)
| GetBoolean (key : string) (defaultValue : bool) (k : bool -> Task A)
| Perform (e : Effect) (k : Task A)
| Await (c : Call) (k : Resp c -> Task A).

Arguments Ret {A} a.
Arguments Read {A} k.
Arguments Update {A} f k.
Arguments GetBoolean {A} key defaultValue k.
Arguments Perform {A} e k.
Arguments Await {A} c k.

Fixpoint bind {A B} (t : Task A) (f : A -> Task B) : Task B :=
  match t with
  | Ret a => f a
  | Read k => Read (fun this => bind (k this) f)
  | Update g k => Update g (bind k f)
  | GetBoolean key d k => GetBoolean key d (fun b => bind (k b) f)
  | Perform e k => Perform e (bind k f)
  | Await c k => Await c (fun r => bind (k r) f)
  end.

Definition read {X} (field : NotificationsStore -> X) : Task X :=
  Read (fun this => Ret (field this)).
Definition update (f : NotificationsStore -> NotificationsStore) : Task unit :=
  Update f (Ret tt).
Definition getBoolean (key : string) (defaultValue : bool) : Task bool :=
  GetBoolean key defaultValue Ret.
Definition perform (e : Effect) : Task unit := Perform e (Ret tt).
Definition await (c : Call) : Task (Resp c) := Await c Ret.

Declare Scope task_scope.
Delimit Scope task_scope with task.
Bind Scope task_scope with Task.
Notation "x <- t ;; k" := (bind t (fun x => k))
  (at level 100, t at next level, right associativity) : task_scope.
Notation "t ;; k" := (bind t (fun _ => k))
  (at level 100, right associativity) : task_scope.
Local Open Scope task_scope.

(** ** Running a task *)

(** The collaborators' answers. *)
Record World := {
  pullRequests : RepositoryWithGitHubRepository -> list PullRequest;
  accounts : list Account;
  commits : RepositoryWithGitHubRepository -> string -> option Commit;
  combinedRefStatus :
    API -> string -> string -> string -> option (list APIRefStatusItem);
  refCheckRuns :
    API -> string -> string -> string -> option (list APIRefCheckRun)
}.

Fixpoint respond (w : World) (c : Call) : Resp c :=
  match c with
  | getAllPullRequests r => pullRequests w r
  | accountsStore_getAll => accounts w
  | getCommit r sha => commits w r sha
  | fetchCombinedRefStatus api o n ref => combinedRefStatus w api o n ref
  | fetchRefCheckRuns api o n ref => refCheckRuns w api o n ref
  | PromiseAll c1 c2 => (respond w c1, respond w c2)
  end.

(** What the application may do to the store while a method is suspended:
    call one of the public methods that assign a field. *)
Inductive Action :=
| SelectRepository (repository : Repository)
| OnChecksFailedNotification (callback : OnChecksFailedCallback).

(** [selectRepository] and [onChecksFailedNotification] (source lines
    149-153 and 264-266), as store transformers. *)
Definition selectRepository (repository : Repository)
    (this : NotificationsStore) : NotificationsStore :=
  set_repository (isRepositoryWithGitHubRepository repository) this.

Definition onChecksFailedNotification (callback : OnChecksFailedCallback)
    (this : NotificationsStore) : NotificationsStore :=
  set_onChecksFailedCallback (Some callback) this.

Definition act (a : Action) : NotificationsStore -> NotificationsStore :=
  match a with
  | SelectRepository r => selectRepository r
  | OnChecksFailedNotification cb => onChecksFailedNotification cb
  end.

Definition interfere (acts : list Action) (this : NotificationsStore)
  : NotificationsStore :=
  fold_left (fun s a => act a s) acts this.

(** The actions the application performs during the [n]-th suspension of a
    run, which awaits [c]. *)
Definition Schedule := nat -> Call -> list Action.

Definition quiet : Schedule := fun _ _ => [].

Inductive Label :=
| Called (c : Call)
| Performed (e : Effect).

(** The store object together with the persisted settings. Modelled from
    the spec: [lib/local-storage] is not among the sources; §6:
    [getBoolean(key, default)] and [setBoolean(key, value)] over persisted
    boolean storage, the default being returned "when absent" (§4.1). *)
Record Machine := {
  this : NotificationsStore;
  localStorage : gmap string bool
}.

Record Outcome (A : Type) := {
  result : A;
  final : Machine;
  trace : list Label;
  suspensions : nat
}.
Arguments result {A} o.
Arguments final {A} o.
Arguments trace {A} o.
Arguments suspensions {A} o.

Definition logged {A} (l : Label) (o : Outcome A) : Outcome A :=
  {| result := result o; final := final o;
     trace := l :: trace o; suspensions := suspensions o |}.

(** The machine when a method resumes from its [n]-th suspension. *)
Definition resumed (sched : Schedule) (n : nat) (c : Call) (m : Machine)
  : Machine :=
  {| this := interfere (sched n c) (this m); localStorage := localStorage m |}.

(** The machine after a synchronous effect. *)
Definition performed (e : Effect) (m : Machine) : Machine :=
  match e with
  | setBoolean key v =>
      {| this := this m; localStorage := <[key := v]> (localStorage m) |}
  | _ => m
  end.

Definition updated (f : NotificationsStore -> NotificationsStore)
    (m : Machine) : Machine :=
  {| this := f (this m); localStorage := localStorage m |}.

Fixpoint run {A} (w : World) (sched : Schedule) (t : Task A)
    (n : nat) (m : Machine) : Outcome A :=
  match t with
  | Ret a => {| result := a; final := m; trace := []; suspensions := n |}
  | Read k => run w sched (k (this m)) n m
  | Update f k => run w sched k n (updated f m)
  | GetBoolean key d k =>
      run w sched (k (default d (localStorage m !! key))) n m
  | Perform e k => logged (Performed e) (run w sched k n (performed e m))
  | Await c k =>
      logged (Called c) (run w sched (k (respond w c)) (S n) (resumed sched n c m))
  end.

(** ** The methods of [NotificationsStore] *)

Context `{!CIChecks APIRefStatusItem APIRefCheckRun}.

(** The localStorage key for whether the user has enabled high-signal
    notifications. *)
Definition NotificationsEnabledKey : string :=
  "high-signal-notifications-enabled".

Definition getNotificationsEnabled : Task bool :=
  getBoolean NotificationsEnabledKey true.

(** The constructor's body (source lines 57-58). *)
Definition constructor : Task unit :=
  enabled <- getNotificationsEnabled ;;
  perform (aliveStore_setEnabled enabled) ;;
  perform aliveStore_onAliveEventReceived.

(** Enables or disables high-signal notifications entirely. *)
Definition setNotificationsEnabled (enabled : bool) : Task unit :=
  previousValue <- getBoolean NotificationsEnabledKey true ;;
  if Bool.eqb previousValue enabled then Ret tt
  else
    perform (setBoolean NotificationsEnabledKey enabled) ;;
    perform (aliveStore_setEnabled enabled).

Definition getAccountForRepository (repository : GitHubRepository)
  : Task (option Account) :=
  let endpoint := GitHubRepository.endpoint repository in
  accounts <- await accountsStore_getAll ;;
  Ret (find (fun a => String.eqb (Account.endpoint a) endpoint) accounts).

Definition getAPIForRepository (repository : GitHubRepository)
  : Task (option API) :=
  account <- getAccountForRepository repository ;;
  match account with
  | None => Ret None
  | Some account => Ret (Some (API.fromAccount account))
  end.

(** [checks.filter(check => check.conclusion === APICheckConclusion.Failure).length] *)
Definition numberOfFailedChecks (checks : list IRefCheck) : nat :=
  length
    (filter
       (fun check => IRefCheck.conclusion check = Some APICheckConclusion.Failure)
       checks).

(** [s.slice(b, e)] for indices [0 <= b <= e].  A string is the sequence of
    its characters; a SHA is made of hexadecimal digits, one code unit
    each. *)
Definition slice (b e : nat) (s : string) : string :=
  String.substring b (e - b) s.

Definition newline : string := String "010"%char EmptyString.

Definition postChecksFailedNotification (pullRequest : PullRequest)
    (checks : list IRefCheck) (sha : string) (commitMessage : string)
  : Task unit :=
  selected <- read repository ;;
  match selected with
  | None => Ret tt
  | Some repository =>
      let numberOfFailedChecks := numberOfFailedChecks checks in
      (* Sometimes we could get a checks-failed event for a PR whose checks
         just got restarted, so we won't get failed checks at that point. *)
      if Nat.eqb numberOfFailedChecks 0 then Ret tt
      else
        let pluralChecks :=
          if Nat.eqb numberOfFailedChecks 1 then "check was" else "checks were" in
        let shortSHA := slice 0 9 sha in
        let title := "Pull Request checks failed" in
        let body :=
          PullRequest.title pullRequest +:+ " #" +:+
          pretty (PullRequest.pullRequestNumber pullRequest) +:+
          " (" +:+ shortSHA +:+ ")" +:+ newline +:+
          pretty numberOfFailedChecks +:+ " " +:+ pluralChecks +:+
          " not successful." in
        let notification :=
          {| title := title; body := body;
             onClick := {| arg_repository := repository;
                           arg_pullRequest := pullRequest;
                           arg_commitMessage := commitMessage;
                           arg_commitSha := sha;
                           arg_checkRuns := checks |} |} in
        perform (show notification)
  end.

(** The click listener of a notification:
    [this.onChecksFailedCallback?.(repository, pullRequest, ...)]. *)
Definition click (notification : Notification) : Task unit :=
  callback <- read onChecksFailedCallback ;;
  match callback with
  | None => Ret tt
  | Some callback => perform (invoke callback (onClick notification))
  end.

Definition is_null {X} (x : option X) : bool :=
  match x with None => true | Some _ => false end.

Definition getChecksForRef (repository : RepositoryWithGitHubRepository)
    (ref : string) : Task (option (list IRefCheck)) :=
  let gitHubRepository :=
    RepositoryWithGitHubRepository.gitHubRepository repository in
  let owner := GitHubRepository.owner gitHubRepository in
  let name := GitHubRepository.name gitHubRepository in
  api <- getAPIForRepository gitHubRepository ;;
  match api with
  | None => Ret None
  | Some api =>
      answers <- await (PromiseAll
          (fetchCombinedRefStatus api (GitHubRepository.login owner) name ref)
          (fetchRefCheckRuns api (GitHubRepository.login owner) name ref)) ;;
      let statuses := fst answers in
      let checkRuns := snd answers in
      let checks : list IRefCheck := [] in
      if is_null statuses || is_null checkRuns then Ret None
      else
        let checks :=
          match statuses with
          | Some statuses => checks ++ map apiStatusToRefCheck statuses
          | None => checks
          end in
        let checks :=
          match checkRuns with
          | Some check_runs =>
              let latestCheckRunsByName := getLatestCheckRunsByName check_runs in
              checks ++ map apiCheckRunToRefCheck latestCheckRunsByName
          | None => checks
          end in
        let check := createCombinedCheckFromChecks checks in
        match check with
        | None => Ret None
        | Some check =>
            if Nat.eqb (length (ICombinedRefCheck.checks check)) 0 then Ret None
            else Ret (Some (ICombinedRefCheck.checks check))
        end
  end.

Definition handleChecksFailedEvent (event : IDesktopChecksFailedAliveEvent)
  : Task unit :=
  selected <- read repository ;;
  match selected with
  | None => Ret tt
  | Some repository =>
      pullRequests <- await (getAllPullRequests repository) ;;
      let pullRequest :=
        find (fun pr => Z.eqb (PullRequest.pullRequestNumber pr)
                              (pull_request_number event)) pullRequests in
      (* If the PR is not in cache, it probably means it the checks weren't
         triggered by a push from Desktop, so we can maybe ignore it? *)
      match pullRequest with
      | None => Ret tt
      | Some pullRequest =>
          account <- getAccountForRepository
                       (RepositoryWithGitHubRepository.gitHubRepository repository) ;;
          match account with
          | None => Ret tt
          | Some account =>
              let commitSHA := commit_sha event in
              skipped <- read (fun this =>
                           bool_decide (commitSHA ∈ skipCommitShas this)) ;;
              if skipped : bool then Ret tt
              else
                cached <- read (fun this => cachedCommits this !! commitSHA) ;;
                commit <- match cached with
                          | Some commit => Ret (Some commit)
                          | None => await (getCommit repository commitSHA)
                          end ;;
                match commit with
                | None => update (skipCommitShas_add commitSHA)
                | Some commit =>
                    update (cachedCommits_set commitSHA commit) ;;
                    if negb (bool_decide
                               (Commit.email (Commit.author commit)
                                ∈ map Account.email (Account.emails account)))
                    then update (skipCommitShas_add commitSHA)
                    else
                      checks <- getChecksForRef repository
                                  (PullRequest.ref (PullRequest.head pullRequest)) ;;
                      match checks with
                      | None => Ret tt
                      | Some checks =>
                          postChecksFailedNotification pullRequest checks
                            commitSHA (Commit.summary commit)
                      end
                end
          end
      end
  end.

Definition onAliveEventReceived (e : DesktopAliveEvent) : Task unit :=
  if String.eqb (DesktopAliveEvent.type e) "pr-checks-failed"
  then handleChecksFailedEvent (DesktopAliveEvent.asChecksFailed e)
  else Ret tt.

End Store.

Arguments Ret {_ _ A} a.
Arguments Read {_ _ A} k.
Arguments Update {_ _ A} f k.
Arguments GetBoolean {_ _ A} key defaultValue k.
Arguments Perform {_ _ A} e k.
Arguments Await {_ _ A} c k.
Arguments result {A} o.
Arguments final {A} o.
Arguments trace {A} o.
Arguments suspensions {A} o.
Arguments World : clear implicits.
Arguments Task : clear implicits.

(** ** A sample world

    A concrete choice of the REST entries and of the [ci-checks] helpers,
    and a small world over it, for the concrete runs below.  The helpers
    follow §4.4 and §8 of the spec: a status maps to one check, and of the
    check runs that share a name only the most recent one is kept. *)
Module Sample.

Record StatusItem := { context : string; state : option APICheckConclusion }.

Record CheckRun := {
  run_name : string;
  run_number : Z;
  run_conclusion : option APICheckConclusion
}.

Definition latest (runs : list CheckRun) (r : CheckRun) : bool :=
  forallb (fun r' => negb (String.eqb (run_name r') (run_name r))
                     || Z.leb (run_number r') (run_number r)) runs.

Definition worst (checks : list IRefCheck) : option APICheckConclusion :=
  if existsb (fun c => bool_decide
                (IRefCheck.conclusion c = Some APICheckConclusion.Failure)) checks
  then Some APICheckConclusion.Failure
  else if forallb (fun c => bool_decide
                (IRefCheck.conclusion c = Some APICheckConclusion.Success)) checks
  then Some APICheckConclusion.Success
  else None.

#[export] Instance ciChecks : CIChecks StatusItem CheckRun := {|
  apiStatusToRefCheck s :=
    {| IRefCheck.name := context s; IRefCheck.conclusion := state s |};
  apiCheckRunToRefCheck r :=
    {| IRefCheck.name := run_name r; IRefCheck.conclusion := run_conclusion r |};
  getLatestCheckRunsByName runs := List.filter (latest runs) runs;
  worstConclusion := worst
|}.

Definition dotcom : string := "https://api.github.com".

Definition hello : GitHubRepository :=
  {| GitHubRepository.endpoint := dotcom;
     GitHubRepository.owner := {| GitHubRepository.login := "octocat" |};
     GitHubRepository.name := "hello" |}.

Definition world_ : GitHubRepository :=
  {| GitHubRepository.endpoint := dotcom;
     GitHubRepository.owner := {| GitHubRepository.login := "octocat" |};
     GitHubRepository.name := "world" |}.

(** Three local repositories: two linked to GitHub, one not. *)
Definition repoA : Repository := {| Repository.gitHubRepository := Some hello |}.
Definition repoB : Repository := {| Repository.gitHubRepository := Some world_ |}.
Definition repoLocal : Repository := {| Repository.gitHubRepository := None |}.

Definition selectedA : RepositoryWithGitHubRepository :=
  {| RepositoryWithGitHubRepository.gitHubRepository := hello |}.
Definition selectedB : RepositoryWithGitHubRepository :=
  {| RepositoryWithGitHubRepository.gitHubRepository := world_ |}.

Definition pr42 : PullRequest :=
  {| PullRequest.pullRequestNumber := 42;
     PullRequest.title := "Fix the build";
     PullRequest.head := {| PullRequest.ref := "fix-build" |} |}.

Definition me : Account :=
  {| Account.endpoint := dotcom;
     Account.emails := [ {| Account.email := "me@example.com" |} ] |}.

Definition mine : Commit :=
  {| Commit.sha := "abc1234567890";
     Commit.author := {| Commit.email := "me@example.com" |};
     Commit.summary := "Fix the build" |}.

Definition theirs : Commit :=
  {| Commit.sha := "def4567890123";
     Commit.author := {| Commit.email := "them@example.com" |};
     Commit.summary := "Break the build" |}.

Definition lint : StatusItem :=
  {| context := "lint"; state := Some APICheckConclusion.Success |}.
Definition build1 : CheckRun :=
  {| run_name := "build"; run_number := 1;
     run_conclusion := Some APICheckConclusion.Success |}.
Definition build2 : CheckRun :=
  {| run_name := "build"; run_number := 2;
     run_conclusion := Some APICheckConclusion.Failure |}.

(** Pull request 42 belongs to [hello]; REST answers are the same for
    every client. *)
Definition world : World StatusItem CheckRun :=
  {| pullRequests r :=
       if String.eqb (GitHubRepository.name
                        (RepositoryWithGitHubRepository.gitHubRepository r))
                     "hello"
       then [pr42] else [];
     accounts := [me];
     commits _ sha :=
       if String.eqb sha "abc1234567890" then Some mine
       else if String.eqb sha "def4567890123" then Some theirs
       else None;
     combinedRefStatus _ _ _ _ := Some [lint];
     refCheckRuns _ _ _ _ := Some [build1; build2] |}.

(** The same world with nobody signed in. *)
Definition signedOut : World StatusItem CheckRun :=
  {| pullRequests := pullRequests world;
     accounts := [];
     commits := commits world;
     combinedRefStatus := combinedRefStatus world;
     refCheckRuns := refCheckRuns world |}.

(** The checks of the sample world: the status, then the latest run
    named "build". *)
Definition sampleChecks : list IRefCheck :=
  [ {| IRefCheck.name := "lint";
       IRefCheck.conclusion := Some APICheckConclusion.Success |};
    {| IRefCheck.name := "build";
       IRefCheck.conclusion := Some APICheckConclusion.Failure |} ].

(** Two failed checks. *)
Definition twoFailures : list IRefCheck :=
  [ {| IRefCheck.name := "lint";
       IRefCheck.conclusion := Some APICheckConclusion.Failure |};
    {| IRefCheck.name := "docs";
       IRefCheck.conclusion := Some APICheckConclusion.Neutral |};
    {| IRefCheck.name := "build";
       IRefCheck.conclusion := Some APICheckConclusion.Failure |} ].

Definition checksFailed (sha : string) : IDesktopChecksFailedAliveEvent :=
  {| pull_request_number := 42; commit_sha := sha |}.

(** A fresh store in which [repoA] has been selected. *)
Definition start : Machine :=
  {| this := selectRepository repoA newStore; localStorage := ∅ |}.

(** The user selects [repository] while the two check fetches are in
    flight, and does nothing at the other suspensions. *)
Definition switchDuringCheckFetch (repository : Repository)
  : Schedule :=
  fun _ c =>
    match c with
    | PromiseAll _ _ => [SelectRepository repository]
    | _ => []
    end.

(** The user selects [repository] while the pull-request list is fetched,
    and does nothing at the other suspensions. *)
Definition switchDuringListFetch (repository : Repository) : Schedule :=
  fun _ c =>
    match c with
    | getAllPullRequests _ => [SelectRepository repository]
    | _ => []
    end.

(** An event of another kind, and one of the checks-failed kind. *)
Definition merged : DesktopAliveEvent :=
  {| DesktopAliveEvent.type := "pr-merged";
     DesktopAliveEvent.asChecksFailed := checksFailed "abc1234567890" |}.

End Sample.

(** ** What the specification says, as definitions *)

(** §4.5: "first 9 chars of SHA". *)
Definition first_chars (n : nat) (s : string) : string :=
  string_of_list_ascii (take n (list_ascii_of_string s)).

(** §4.4: the "number of entries whose conclusion is exactly failure". *)
Fixpoint failureTally (checks : list IRefCheck) : nat :=
  match checks with
  | [] => 0
  | check :: checks =>
      match IRefCheck.conclusion check with
      | Some APICheckConclusion.Failure => S (failureTally checks)
      | _ => failureTally checks
      end
  end.

(** §4.5: the body ["<PR title> #<PR number> (<first 9 chars of SHA>)\n<N>
    <check(s)> was/were not successful."], singular for one failed check
    and plural otherwise. *)
Definition checksFailedBody (prTitle : string) (prNumber : Z) (sha : string)
    (failed : nat) : string :=
  prTitle +:+ " #" +:+ pretty prNumber +:+ " (" +:+ first_chars 9 sha +:+ ")"
  +:+ newline +:+ pretty failed +:+ " "
  +:+ (if decide (failed = 1) then "check was" else "checks were")
  +:+ " not successful.".

(** §4.5: the notification posted for a pull request, with what its click
    hands to the observer. *)
Definition checksFailedNotification (r : RepositoryWithGitHubRepository)
    (pr : PullRequest) (checks : list IRefCheck) (sha commitMessage : string)
  : Notification :=
  {| title := "Pull Request checks failed";
     body := checksFailedBody (PullRequest.title pr)
               (PullRequest.pullRequestNumber pr) sha
               (numberOfFailedChecks checks);
     onClick := {| arg_repository := r;
                   arg_pullRequest := pr;
                   arg_commitMessage := commitMessage;
                   arg_commitSha := sha;
                   arg_checkRuns := checks |} |}.

(** The call that fetches both answers for a ref of a repository. *)
Definition checkFetch (account : Account) (r : RepositoryWithGitHubRepository)
    (ref : string) : Call :=
  let gh := RepositoryWithGitHubRepository.gitHubRepository r in
  PromiseAll
    (fetchCombinedRefStatus (API.fromAccount account)
       (GitHubRepository.login (GitHubRepository.owner gh))
       (GitHubRepository.name gh) ref)
    (fetchRefCheckRuns (API.fromAccount account)
       (GitHubRepository.login (GitHubRepository.owner gh))
       (GitHubRepository.name gh) ref).

Section Specification.

Context {APIRefStatusItem APIRefCheckRun : Type}.
Context `{!CIChecks APIRefStatusItem APIRefCheckRun}.

(** §4.4: "The two RefCheck lists are concatenated (statuses before
    check-runs)", the check runs "first deduplicated by name". *)
Definition concatenated (statuses : list APIRefStatusItem)
    (check_runs : list APIRefCheckRun) : list IRefCheck :=
  map apiStatusToRefCheck statuses
  ++ map apiCheckRunToRefCheck (getLatestCheckRunsByName check_runs).

(** §4.4: both fetches "must succeed (non-null) or the whole aggregation
    fails", and an empty combined list "is treated as a null result". *)
Definition aggregated (statuses : option (list APIRefStatusItem))
    (check_runs : option (list APIRefCheckRun)) : option (list IRefCheck) :=
  match statuses, check_runs with
  | Some statuses, Some check_runs =>
      match concatenated statuses check_runs with
      | [] => None
      | checks => Some checks
      end
  | _, _ => None
  end.

(** The account [getAccountForRepository] finds in a world. *)
Definition accountFor (w : World APIRefStatusItem APIRefCheckRun)
    (gh : GitHubRepository) : option Account :=
  find (fun a => String.eqb (Account.endpoint a) (GitHubRepository.endpoint gh))
       (accounts w).

(** The two answers [getChecksForRef] receives for a repository and a ref
    through the client of [account]. *)
Definition statusesFor (w : World APIRefStatusItem APIRefCheckRun)
    (account : Account) (r : RepositoryWithGitHubRepository) (ref : string)
  : option (list APIRefStatusItem) :=
  let gh := RepositoryWithGitHubRepository.gitHubRepository r in
  combinedRefStatus w (API.fromAccount account)
    (GitHubRepository.login (GitHubRepository.owner gh))
    (GitHubRepository.name gh) ref.

Definition checkRunsFor (w : World APIRefStatusItem APIRefCheckRun)
    (account : Account) (r : RepositoryWithGitHubRepository) (ref : string)
  : option (list APIRefCheckRun) :=
  let gh := RepositoryWithGitHubRepository.gitHubRepository r in
  refCheckRuns w (API.fromAccount account)
    (GitHubRepository.login (GitHubRepository.owner gh))
    (GitHubRepository.name gh) ref.

(** The pull request of a repository that an event names. *)
Definition pullRequestFor (w : World APIRefStatusItem APIRefCheckRun)
    (r : RepositoryWithGitHubRepository) (event : IDesktopChecksFailedAliveEvent)
  : option PullRequest :=
  find (fun pr => Z.eqb (PullRequest.pullRequestNumber pr)
                        (pull_request_number event))
       (pullRequests w r).

(** The commit an event resolves to: the cached one, else the fetched one. *)
Definition resolvedCommit (w : World APIRefStatusItem APIRefCheckRun)
    (this : NotificationsStore) (r : RepositoryWithGitHubRepository)
    (sha : string) : option Commit :=
  match cachedCommits this !! sha with
  | Some commit => Some commit
  | None => commits w r sha
  end.

Definition authoredBy (account : Account) (commit : Commit) : Prop :=
  Commit.email (Commit.author commit) ∈ map Account.email (Account.emails account).

#[global] Instance authoredBy_dec account commit :
  Decision (authoredBy account commit).
Proof. unfold authoredBy. apply _. Defined.

(** The calls of a trace. *)
Definition isCommitFetch (l : Label) : Prop :=
  match l with Called (getCommit _ _) => True | _ => False end.
Definition isCheckFetch (l : Label) : Prop :=
  match l with Called (PromiseAll _ _) => True
             | Called (fetchCombinedRefStatus _ _ _ _) => True
             | Called (fetchRefCheckRuns _ _ _ _) => True
             | _ => False end.
Definition isShow (l : Label) : Prop :=
  match l with Performed (show _) => True | _ => False end.

(** *** The course of a handled event

    The points at which [handleChecksFailedEvent] returns, with what it has
    resolved by then. *)
Inductive Verdict :=
| NoActiveRepository
| PullRequestNotFound (r : RepositoryWithGitHubRepository)
| NoAuthorizedAccount (r : RepositoryWithGitHubRepository) (pr : PullRequest)
| KnownDeadEnd (r : RepositoryWithGitHubRepository) (pr : PullRequest)
    (account : Account)
| CommitUnresolvable (r : RepositoryWithGitHubRepository) (pr : PullRequest)
    (account : Account)
| AuthorMismatch (r : RepositoryWithGitHubRepository) (pr : PullRequest)
    (account : Account) (commit : Commit)
| ChecksUnavailable (r : RepositoryWithGitHubRepository) (pr : PullRequest)
    (account : Account) (commit : Commit)
| Dispatched (r : RepositoryWithGitHubRepository) (pr : PullRequest)
    (account : Account) (commit : Commit) (checks : list IRefCheck).

(** Where an event stops, from the store at its arrival and the
    collaborators' answers. *)
Definition verdict (w : World APIRefStatusItem APIRefCheckRun)
    (s : NotificationsStore) (event : IDesktopChecksFailedAliveEvent)
  : Verdict :=
  match repository s with
  | None => NoActiveRepository
  | Some r =>
      match pullRequestFor w r event with
      | None => PullRequestNotFound r
      | Some pr =>
          match accountFor w (RepositoryWithGitHubRepository.gitHubRepository r) with
          | None => NoAuthorizedAccount r pr
          | Some account =>
              if decide (commit_sha event ∈ skipCommitShas s)
              then KnownDeadEnd r pr account
              else
                match resolvedCommit w s r (commit_sha event) with
                | None => CommitUnresolvable r pr account
                | Some commit =>
                    if decide (authoredBy account commit) then
                      match aggregated
                              (statusesFor w account r
                                 (PullRequest.ref (PullRequest.head pr)))
                              (checkRunsFor w account r
                                 (PullRequest.ref (PullRequest.head pr))) with
                      | None => ChecksUnavailable r pr account commit
                      | Some checks => Dispatched r pr account commit checks
                      end
                    else AuthorMismatch r pr account commit
                end
          end
      end
  end.

(** The commit fetch, made only when the cache has no entry. *)
Definition commitFetch (s : NotificationsStore)
    (r : RepositoryWithGitHubRepository) (sha : string) : list Call :=
  match cachedCommits s !! sha with
  | Some _ => []
  | None => [getCommit r sha]
  end.

(** The calls awaited up to a verdict, in order. *)
Definition awaited (s : NotificationsStore) (sha : string) (v : Verdict)
  : list Call :=
  match v with
  | NoActiveRepository => []
  | PullRequestNotFound r => [getAllPullRequests r]
  | NoAuthorizedAccount r _ | KnownDeadEnd r _ _ =>
      [getAllPullRequests r; accountsStore_getAll]
  | CommitUnresolvable r _ _ | AuthorMismatch r _ _ _ =>
      [getAllPullRequests r; accountsStore_getAll] ++ commitFetch s r sha
  | ChecksUnavailable r pr account _ | Dispatched r pr account _ _ =>
      [getAllPullRequests r; accountsStore_getAll] ++ commitFetch s r sha
      ++ [accountsStore_getAll;
          checkFetch account r (PullRequest.ref (PullRequest.head pr))]
  end.

(** What a verdict records in the two caches. *)
Definition recorded (sha : string) (v : Verdict) (s : NotificationsStore)
  : NotificationsStore :=
  match v with
  | CommitUnresolvable _ _ _ => skipCommitShas_add sha s
  | AuthorMismatch _ _ _ commit =>
      skipCommitShas_add sha (cachedCommits_set sha commit s)
  | ChecksUnavailable _ _ _ commit | Dispatched _ _ _ commit _ =>
      cachedCommits_set sha commit s
  | _ => s
  end.

(** The actions the application performs during the suspensions of a run
    that starts at suspension [n] and awaits [calls]. *)
Fixpoint scheduled (sched : Schedule) (n : nat) (calls : list Call)
  : list Action :=
  match calls with
  | [] => []
  | c :: calls => sched n c ++ scheduled sched (S n) calls
  end.

(** The selection when a qualifying event reaches
    [postChecksFailedNotification]: the selection at its arrival after the
    actions the application performs during the suspensions of the run, at
    whichever of them, in order. *)
Definition selectionAtDispatch (sched : Schedule) (n : nat)
    (s : NotificationsStore) (r : RepositoryWithGitHubRepository)
    (account : Account) (pr : PullRequest) (sha : string)
  : option RepositoryWithGitHubRepository :=
  repository
    (interfere
       (scheduled sched n
          ([getAllPullRequests r; accountsStore_getAll]
           ++ commitFetch s r sha
           ++ [accountsStore_getAll;
               checkFetch account r (PullRequest.ref (PullRequest.head pr))]))
       s).

(** What is shown at a verdict when [selected] is the selection at that
    moment. *)
Definition shownAt (sha : string) (v : Verdict)
    (selected : option RepositoryWithGitHubRepository) : list Label :=
  match v, selected with
  | Dispatched _ pr _ commit checks, Some r' =>
      if decide (numberOfFailedChecks checks = 0) then []
      else [Performed (show (checksFailedNotification r' pr checks sha
                               (Commit.summary commit)))]
  | _, _ => []
  end.

(** The calls of a trace, in order. *)
Definition callsOf (tr : list Label) : list Call :=
  omap (fun l => match l with Called c => Some c | Performed _ => None end) tr.

(** The notifications of a trace, in order. *)
Definition shownIn (tr : list Label) : list Notification :=
  omap (fun l => match l with Performed (show nt) => Some nt | _ => None end) tr.

End Specification.

(** ** Properties *)

Section Properties.

Context {APIRefStatusItem APIRefCheckRun : Type}.
Context `{!CIChecks APIRefStatusItem APIRefCheckRun}.

Implicit Types (w : World APIRefStatusItem APIRefCheckRun) (sched : Schedule).
Implicit Types (m : Machine) (n : nat) (s : NotificationsStore).

(** *** The application's actions leave the two caches alone *)

Lemma act_cachedCommits a s : cachedCommits (act a s) = cachedCommits s.
Proof. by destruct a. Qed.

Lemma act_skipCommitShas a s : skipCommitShas (act a s) = skipCommitShas s.
Proof. by destruct a. Qed.

Lemma interfere_cachedCommits acts s :
  cachedCommits (interfere acts s) = cachedCommits s.
Proof.
  revert s. induction acts as [|a acts IH]; intros s; [done|].
  cbn. unfold interfere in IH. by rewrite IH, act_cachedCommits.
Qed.

Lemma interfere_skipCommitShas acts s :
  skipCommitShas (interfere acts s) = skipCommitShas s.
Proof.
  revert s. induction acts as [|a acts IH]; intros s; [done|].
  cbn. unfold interfere in IH. by rewrite IH, act_skipCommitShas.
Qed.

Lemma interfere_snoc acts a s :
  interfere (acts ++ [a]) s = act a (interfere acts s).
Proof. unfold interfere. by rewrite fold_left_app. Qed.

Lemma resumed_cachedCommits sched n c m :
  cachedCommits (this (resumed sched n c m)) = cachedCommits (this m).
Proof. apply interfere_cachedCommits. Qed.

Lemma resumed_skipCommitShas sched n c m :
  skipCommitShas (this (resumed sched n c m)) = skipCommitShas (this m).
Proof. apply interfere_skipCommitShas. Qed.

(** *** Running a sequence *)

Lemma run_bind {A B} w sched (t : Task _ _ A) (f : A -> Task _ _ B) n m :
  run w sched (bind t f) n m =
  {| result := result (run w sched (f (result (run w sched t n m)))
                         (suspensions (run w sched t n m))
                         (final (run w sched t n m)));
     final := final (run w sched (f (result (run w sched t n m)))
                         (suspensions (run w sched t n m))
                         (final (run w sched t n m)));
     trace := trace (run w sched t n m)
              ++ trace (run w sched (f (result (run w sched t n m)))
                         (suspensions (run w sched t n m))
                         (final (run w sched t n m)));
     suspensions := suspensions (run w sched (f (result (run w sched t n m)))
                         (suspensions (run w sched t n m))
                         (final (run w sched t n m))) |}.
Proof.
  revert n m.
  induction t as [a|k IH|g k IH|key d k IH|e k IH|c k IH]; intros n m; cbn.
  - by destruct (run w sched (f a) n m).
  - apply IH.
  - apply IH.
  - apply IH.
  - by rewrite IH.
  - by rewrite IH.
Qed.

Lemma run_getAccountForRepository w sched gh n m :
  run w sched (getAccountForRepository gh) n m =
  {| result := accountFor w gh;
     final := resumed sched n accountsStore_getAll m;
     trace := [Called accountsStore_getAll];
     suspensions := S n |}.
Proof. reflexivity. Qed.

(** *** [getChecksForRef] *)

Lemma run_getChecksForRef w sched r ref n m :
  run w sched (getChecksForRef r ref) n m =
  match accountFor w (RepositoryWithGitHubRepository.gitHubRepository r) with
  | None =>
      {| result := None;
         final := resumed sched n accountsStore_getAll m;
         trace := [Called accountsStore_getAll];
         suspensions := S n |}
  | Some account =>
      {| result := aggregated (statusesFor w account r ref)
                              (checkRunsFor w account r ref);
         final := resumed sched (S n) (checkFetch account r ref)
                    (resumed sched n accountsStore_getAll m);
         trace := [Called accountsStore_getAll;
                   Called (checkFetch account r ref)];
         suspensions := S (S n) |}
  end.
Proof.
  unfold getChecksForRef, getAPIForRepository.
  rewrite run_bind, run_bind, run_getAccountForRepository. cbn [result final trace suspensions].
  destruct (accountFor w _) as [account|]; [|reflexivity].
  cbn [run bind await logged result final trace suspensions app respond fst snd].
  unfold aggregated, statusesFor, checkRunsFor, concatenated, checkFetch.
  destruct (combinedRefStatus w _ _ _ _) as [statuses|]; [|reflexivity].
  destruct (refCheckRuns w _ _ _ _) as [check_runs|]; [|reflexivity].
  cbn [is_null orb app].
  destruct (map apiStatusToRefCheck statuses ++ _) as [|c checks]; reflexivity.
Qed.

(** *** [postChecksFailedNotification] *)

Lemma substring_0_take n (str : string) :
  String.substring 0 n str
  = string_of_list_ascii (take n (list_ascii_of_string str)).
Proof.
  revert str. induction n as [|n IH]; intros [|c str]; cbn; try reflexivity.
  by rewrite IH.
Qed.

Lemma slice_first_chars n (str : string) : slice 0 n str = first_chars n str.
Proof. unfold slice, first_chars. rewrite Nat.sub_0_r. apply substring_0_take. Qed.

Lemma run_postChecksFailedNotification w sched pr checks sha msg n m :
  run w sched (postChecksFailedNotification pr checks sha msg) n m =
  {| result := tt; final := m;
     trace := match repository (this m) with
              | None => []
              | Some r =>
                  if decide (numberOfFailedChecks checks = 0) then []
                  else [Performed (show (checksFailedNotification r pr checks sha msg))]
              end;
     suspensions := n |}.
Proof.
  unfold postChecksFailedNotification. cbn [run bind read].
  destruct (repository (this m)) as [r|]; [|reflexivity].
  destruct (decide (numberOfFailedChecks checks = 0)) as [->|Hfailed];
    [reflexivity|].
  rewrite (proj2 (Nat.eqb_neq _ 0) Hfailed).
  cbn [run perform logged performed result final trace suspensions].
  unfold checksFailedNotification, checksFailedBody.
  rewrite slice_first_chars.
  destruct (decide (numberOfFailedChecks checks = 1)) as [->|Hone];
    [reflexivity|].
  by rewrite (proj2 (Nat.eqb_neq _ 1) Hone).
Qed.

Lemma final_postChecksFailedNotification w sched pr checks sha msg n m :
  final (run w sched (postChecksFailedNotification pr checks sha msg) n m) = m.
Proof. by rewrite run_postChecksFailedNotification. Qed.

(** *** [handleChecksFailedEvent] *)

Ltac handler_step :=
  cbn [run bind read update await perform logged updated
       result final trace suspensions respond app].

(** The steps every handled event takes up to the Skip Set test. *)
Ltac handler_intro Hr Hpr Hacc :=
  unfold handleChecksFailedEvent;
  handler_step; rewrite Hr; handler_step;
  match goal with
  | |- context [find _ (pullRequests ?w ?r)] =>
      match type of Hpr with
      | pullRequestFor _ _ ?event = _ =>
          change (find _ (pullRequests w r)) with (pullRequestFor w r event)
      end
  end;
  rewrite Hpr, run_bind, run_getAccountForRepository;
  handler_step; rewrite Hacc; handler_step;
  rewrite !resumed_skipCommitShas.

Ltac caches :=
  rewrite ?final_postChecksFailedNotification;
  repeat first
    [ progress cbn [this final updated cachedCommits skipCommitShas
                    cachedCommits_set skipCommitShas_add]
    | rewrite resumed_cachedCommits
    | rewrite resumed_skipCommitShas ].

(** The two caches once a handled event has got past the Skip Set test. *)
Lemma caches_after_resolution w sched event n m r pr account :
  repository (this m) = Some r ->
  pullRequestFor w r event = Some pr ->
  accountFor w (RepositoryWithGitHubRepository.gitHubRepository r) = Some account ->
  commit_sha event ∉ skipCommitShas (this m) ->
  cachedCommits (this (final (run w sched (handleChecksFailedEvent event) n m)))
  = match resolvedCommit w (this m) r (commit_sha event) with
    | Some commit => <[commit_sha event := commit]> (cachedCommits (this m))
    | None => cachedCommits (this m)
    end
  /\
  skipCommitShas (this (final (run w sched (handleChecksFailedEvent event) n m)))
  = match resolvedCommit w (this m) r (commit_sha event) with
    | Some commit =>
        if decide (authoredBy account commit) then skipCommitShas (this m)
        else {[commit_sha event]} ∪ skipCommitShas (this m)
    | None => {[commit_sha event]} ∪ skipCommitShas (this m)
    end.
Proof.
  intros Hr Hpr Hacc Hskip.
  handler_intro Hr Hpr Hacc.
  rewrite bool_decide_false by done. handler_step.
  rewrite !resumed_cachedCommits. unfold resolvedCommit.
  destruct (cachedCommits (this m) !! commit_sha event) as [commit|] eqn:Hcached;
    handler_step; [|destruct (commits w r (commit_sha event)) as [commit|]];
    handler_step.
  3: { caches. done. }
  all: unfold authoredBy; destruct (decide (_ ∈ _)) as [Hin|Hin];
    [rewrite (bool_decide_true _ Hin)|rewrite (bool_decide_false _ Hin)];
    cbn [negb]; handler_step.
  2,4: caches; done.
  all: rewrite run_bind, run_getChecksForRef, Hacc;
    cbn [result final trace suspensions];
    destruct (aggregated _ _); handler_step; caches; done.
Qed.

(** The trace of an event that gets past every test: the calls up to the
    check fetch, then whatever [postChecksFailedNotification] does in the
    machine the handler resumes in. *)
Lemma trace_of_qualifying_event w sched event n m r pr account commit checks :
  repository (this m) = Some r ->
  pullRequestFor w r event = Some pr ->
  accountFor w (RepositoryWithGitHubRepository.gitHubRepository r) = Some account ->
  commit_sha event ∉ skipCommitShas (this m) ->
  resolvedCommit w (this m) r (commit_sha event) = Some commit ->
  authoredBy account commit ->
  aggregated
    (statusesFor w account r (PullRequest.ref (PullRequest.head pr)))
    (checkRunsFor w account r (PullRequest.ref (PullRequest.head pr)))
  = Some checks ->
  exists before k m',
    trace (run w sched (handleChecksFailedEvent event) n m)
    = before
      ++ Called (checkFetch account r (PullRequest.ref (PullRequest.head pr)))
      :: trace (run w sched
                  (postChecksFailedNotification pr checks (commit_sha event)
                     (Commit.summary commit))
                  (S k)
                  (resumed sched k
                     (checkFetch account r (PullRequest.ref (PullRequest.head pr)))
                     m')).
Proof.
  intros Hr Hpr Hacc Hskip Hcommit Hauth Hchecks.
  handler_intro Hr Hpr Hacc.
  rewrite bool_decide_false by done. handler_step.
  rewrite !resumed_cachedCommits. unfold resolvedCommit in Hcommit.
  destruct (cachedCommits (this m) !! commit_sha event) as [cached|] eqn:Hcached;
    handler_step; [injection Hcommit as ->|rewrite Hcommit]; handler_step.
  all: rewrite (bool_decide_true _ Hauth); cbn [negb];
    rewrite run_bind, run_getChecksForRef, Hacc;
    cbn [result final trace suspensions]; rewrite Hchecks; handler_step.
  - eexists [_; _; _], _, _. reflexivity.
  - eexists [_; _; _; _], _, _. reflexivity.
Qed.

(** The trace of an event whose commit is in the Skip Set. *)
Lemma run_of_skipped_event w sched event n m :
  commit_sha event ∈ skipCommitShas (this m) ->
  trace (run w sched (handleChecksFailedEvent event) n m)
  = match repository (this m) with
    | None => []
    | Some r =>
        Called (getAllPullRequests r)
        :: match pullRequestFor w r event with
           | None => []
           | Some _ => [Called accountsStore_getAll]
           end
    end
  /\ cachedCommits (this (final (run w sched (handleChecksFailedEvent event) n m)))
     = cachedCommits (this m)
  /\ skipCommitShas (this (final (run w sched (handleChecksFailedEvent event) n m)))
     = skipCommitShas (this m).
Proof.
  intros Hskip. unfold handleChecksFailedEvent. handler_step.
  destruct (repository (this m)) as [r|]; [|done]. handler_step.
  change (find _ (pullRequests w r)) with (pullRequestFor w r event).
  destruct (pullRequestFor w r event) as [pr|]; [|handler_step; by caches].
  rewrite run_bind, run_getAccountForRepository. handler_step.
  destruct (accountFor w _) as [account|]; handler_step; [|by caches].
  rewrite !resumed_skipCommitShas, bool_decide_true by done.
  handler_step. by caches.
Qed.

(** *** The properties the specification states *)

(** C2, as amended.  Once an event has got past the Skip Set test, its
    commit SHA is placed as follows: a commit that cannot be resolved puts
    the SHA in the Skip Set and not in the Commit Cache; a resolved commit
    is always cached under the SHA, and the SHA is in the Skip Set as well
    exactly when the author's email is not among the account's emails. *)
Theorem commit_cached_and_skipped_on_mismatch
    w sched event n m r pr account :
  repository (this m) = Some r ->
  pullRequestFor w r event = Some pr ->
  accountFor w (RepositoryWithGitHubRepository.gitHubRepository r) = Some account ->
  commit_sha event ∉ skipCommitShas (this m) ->
  match resolvedCommit w (this m) r (commit_sha event) with
  | None =>
      commit_sha event
        ∈ skipCommitShas (this (final (run w sched (handleChecksFailedEvent event) n m)))
      /\ cachedCommits (this (final (run w sched (handleChecksFailedEvent event) n m)))
           !! commit_sha event = None
  | Some commit =>
      cachedCommits (this (final (run w sched (handleChecksFailedEvent event) n m)))
        !! commit_sha event = Some commit
      /\ (commit_sha event
            ∈ skipCommitShas (this (final (run w sched (handleChecksFailedEvent event) n m)))
          <-> ~ authoredBy account commit)
  end.
Proof.
  intros Hr Hpr Hacc Hskip.
  destruct (caches_after_resolution w sched event n m r pr account Hr Hpr Hacc Hskip)
    as [-> ->].
  destruct (resolvedCommit w (this m) r (commit_sha event)) as [commit|] eqn:Hres.
  - split; [apply lookup_insert_eq|].
    destruct (decide (authoredBy account commit)); set_solver.
  - split; [set_solver|].
    unfold resolvedCommit in Hres.
    by destruct (cachedCommits (this m) !! commit_sha event).
Qed.

(** C3, as amended.  An event aborted because the commit author's email is
    not among the account's emails leaves the commit SHA in the Skip Set.
    Any later checks-failed event with that SHA, in any world and under any
    schedule, performs no commit fetch, no check fetch and posts no
    notification, and leaves both caches as they are; before the Skip Set
    test stops it, it has still fetched the pull-request list (when a
    repository is selected) and looked the account up (when the pull
    request is found). *)
Theorem author_mismatch_skips_later_events
    w sched event n m r pr account commit :
  repository (this m) = Some r ->
  pullRequestFor w r event = Some pr ->
  accountFor w (RepositoryWithGitHubRepository.gitHubRepository r) = Some account ->
  commit_sha event ∉ skipCommitShas (this m) ->
  resolvedCommit w (this m) r (commit_sha event) = Some commit ->
  ~ authoredBy account commit ->
  commit_sha event
    ∈ skipCommitShas (this (final (run w sched (handleChecksFailedEvent event) n m)))
  /\ forall w' sched' event' n' m',
       commit_sha event' = commit_sha event ->
       skipCommitShas (this (final (run w sched (handleChecksFailedEvent event) n m)))
         ⊆ skipCommitShas (this m') ->
       trace (run w' sched' (handleChecksFailedEvent event') n' m')
       = match repository (this m') with
         | None => []
         | Some r' =>
             Called (getAllPullRequests r')
             :: match pullRequestFor w' r' event' with
                | None => []
                | Some _ => [Called accountsStore_getAll]
                end
         end
       /\ Forall (fun l => ~ isCommitFetch l /\ ~ isCheckFetch l /\ ~ isShow l)
            (trace (run w' sched' (handleChecksFailedEvent event') n' m'))
       /\ cachedCommits (this (final (run w' sched' (handleChecksFailedEvent event') n' m')))
          = cachedCommits (this m')
       /\ skipCommitShas (this (final (run w' sched' (handleChecksFailedEvent event') n' m')))
          = skipCommitShas (this m').
Proof.
  intros Hr Hpr Hacc Hskip Hres Hauth.
  destruct (caches_after_resolution w sched event n m r pr account Hr Hpr Hacc Hskip)
    as [_ Hskipped].
  rewrite Hres in Hskipped. rewrite decide_False in Hskipped; [|done].
  assert (commit_sha event
          ∈ skipCommitShas (this (final (run w sched (handleChecksFailedEvent event) n m))))
    as Hin by (rewrite Hskipped; by apply elem_of_union_l, elem_of_singleton).
  split; [done|].
  intros w' sched' event' n' m' Hsha Hsub.
  assert (commit_sha event' ∈ skipCommitShas (this m')) as Hin'
    by (rewrite Hsha; by apply Hsub).
  destruct (run_of_skipped_event w' sched' event' n' m' Hin') as (Htr & Hc & Hs).
  repeat split; try done.
  rewrite Htr. destruct (repository (this m')) as [r'|]; [|constructor].
  repeat constructor; cbn; try tauto.
  destruct (pullRequestFor w' r' event'); repeat constructor; cbn; tauto.
Qed.

(** C4, as amended.  [getChecksForRef] returns null when no signed-in
    account matches the repository's endpoint (no fetch is made then),
    whenever either of its two fetches yields null, and when the combined
    check list is empty; in every other case it returns the non-empty
    combined check list. *)
Theorem getChecksForRef_null_or_combined w sched r ref n m :
  result (run w sched (getChecksForRef r ref) n m)
  = match accountFor w (RepositoryWithGitHubRepository.gitHubRepository r) with
    | None => None
    | Some account =>
        match statusesFor w account r ref, checkRunsFor w account r ref with
        | Some statuses, Some check_runs =>
            if decide (concatenated statuses check_runs = []) then None
            else Some (concatenated statuses check_runs)
        | _, _ => None
        end
    end
  /\ (accountFor w (RepositoryWithGitHubRepository.gitHubRepository r) = None <->
      trace (run w sched (getChecksForRef r ref) n m) = [Called accountsStore_getAll]).
Proof.
  rewrite run_getChecksForRef.
  destruct (accountFor w _) as [account|]; cbn [result trace]; [|done].
  split; [|split; discriminate].
  unfold aggregated.
  destruct (statusesFor w account r ref) as [statuses|]; [|done].
  destruct (checkRunsFor w account r ref) as [check_runs|]; [|done].
  by destruct (concatenated statuses check_runs).
Qed.

(** C5.  With a repository selected, [postChecksFailedNotification] shows a
    notification if and only if at least one check has the conclusion
    [failure]; the tally counts exactly the checks whose conclusion is
    [failure], so a list in which no conclusion is [failure] (cancelled,
    skipped, neutral, ...) produces no notification. *)
Theorem notification_iff_failed_check w sched pr checks sha msg n m :
  repository (this m) <> None ->
  ((exists notification,
       Performed (show notification)
       ∈ trace (run w sched (postChecksFailedNotification pr checks sha msg) n m))
   <-> 0 < numberOfFailedChecks checks)
  /\ (0 < numberOfFailedChecks checks
      <-> exists check,
            check ∈ checks
            /\ IRefCheck.conclusion check = Some APICheckConclusion.Failure)
  /\ (Forall (fun check =>
                IRefCheck.conclusion check ∈ [ Some APICheckConclusion.Cancelled;
                                               Some APICheckConclusion.Skipped;
                                               Some APICheckConclusion.Neutral;
                                               Some APICheckConclusion.Success;
                                               None ]) checks ->
      trace (run w sched (postChecksFailedNotification pr checks sha msg) n m) = []).
Proof.
  intros Hr. rewrite run_postChecksFailedNotification. cbn [trace].
  destruct (repository (this m)) as [r|]; [clear Hr|done].
  assert (0 < numberOfFailedChecks checks
          <-> exists check, check ∈ checks
                /\ IRefCheck.conclusion check = Some APICheckConclusion.Failure)
    as Hcount.
  { unfold numberOfFailedChecks. split.
    - intros Hpos.
      destruct (filter _ checks) as [|check rest] eqn:Hf; [cbn in Hpos; lia|].
      assert (check ∈ filter (fun check => IRefCheck.conclusion check
                                = Some APICheckConclusion.Failure) checks) as Hin
        by (rewrite Hf; left).
      apply list_elem_of_filter in Hin as [Hc Hin]. by exists check.
    - intros (check & Hin & Hc).
      assert (check ∈ filter (fun check => IRefCheck.conclusion check
                                = Some APICheckConclusion.Failure) checks) as Hin'
        by (by apply list_elem_of_filter).
      destruct (filter _ checks); [by apply not_elem_of_nil in Hin'|cbn; lia]. }
  split; [|split; [done|]].
  - destruct (decide (numberOfFailedChecks checks = 0)) as [Hz|Hnz].
    + split; [intros [nt Hin]; by apply not_elem_of_nil in Hin|lia].
    + split; [lia|]. intros _. eexists. left.
  - intros Hall.
    destruct (decide (numberOfFailedChecks checks = 0)) as [Hz|Hnz]; [done|].
    assert (0 < numberOfFailedChecks checks) as Hpos by lia.
    apply Hcount in Hpos as (check & Hin & Hc).
    rewrite Forall_forall in Hall. specialize (Hall check Hin).
    rewrite Hc in Hall.
    repeat (apply elem_of_cons in Hall as [Hall|Hall]; [discriminate|]).
    by apply elem_of_nil in Hall.
Qed.

Lemma numberOfFailedChecks_failureTally (checks : list IRefCheck) :
  numberOfFailedChecks checks = failureTally checks.
Proof.
  unfold numberOfFailedChecks.
  induction checks as [|check checks IH]; [reflexivity|].
  cbn [failureTally]. rewrite <- IH, filter_cons.
  destruct (decide (IRefCheck.conclusion check = Some APICheckConclusion.Failure))
    as [->|Hother]; [reflexivity|].
  by destruct (IRefCheck.conclusion check) as [[]|].
Qed.

(** C6.  The notification shown has the title "Pull Request checks failed"
    and the body "<PR title> #<PR number> (<first 9 chars of SHA>)\n<N>
    <check(s)> was/were not successful.", where <N> is the number of checks
    whose conclusion is failure, the line break is the line feed (character
    10), and the wording is "check was" when <N> is 1 and "checks were"
    otherwise. *)
Theorem notification_title_and_body w sched pr checks sha msg n m r :
  repository (this m) = Some r ->
  0 < failureTally checks ->
  exists notification,
    trace (run w sched (postChecksFailedNotification pr checks sha msg) n m)
    = [Performed (show notification)]
    /\ title notification = "Pull Request checks failed"
    /\ body notification
       = PullRequest.title pr +:+ " #"
         +:+ pretty (PullRequest.pullRequestNumber pr)
         +:+ " (" +:+ first_chars 9 sha +:+ ")"
         +:+ String (ascii_of_nat 10) EmptyString
         +:+ pretty (failureTally checks) +:+ " "
         +:+ (if decide (failureTally checks = 1)
              then "check was" else "checks were")
         +:+ " not successful."
    /\ String.length (first_chars 9 sha) = min 9 (String.length sha).
Proof.
  intros Hr Hpos. rewrite run_postChecksFailedNotification. cbn [trace].
  rewrite Hr, numberOfFailedChecks_failureTally, decide_False by lia.
  eexists. split; [reflexivity|]. split; [reflexivity|].
  split.
  { cbn [body checksFailedNotification]. unfold checksFailedBody.
    by rewrite numberOfFailedChecks_failureTally. }
  unfold first_chars. rewrite <- substring_0_take.
  generalize 9. clear. intros k. revert sha.
  induction k as [|k IH]; intros [|c sha]; cbn; try reflexivity.
  by rewrite IH.
Qed.

(** C7.  When both fetches answer, every status entry is mapped to one
    check, and the list [getChecksForRef] works with is the mapped status
    entries followed by the mapped latest check runs by name, in that
    order. *)
Theorem statuses_before_check_runs
    w sched r ref n m account statuses check_runs :
  accountFor w (RepositoryWithGitHubRepository.gitHubRepository r) = Some account ->
  statusesFor w account r ref = Some statuses ->
  checkRunsFor w account r ref = Some check_runs ->
  result (run w sched (getChecksForRef r ref) n m)
  = (if decide (map apiStatusToRefCheck statuses
                ++ map apiCheckRunToRefCheck (getLatestCheckRunsByName check_runs)
                = [])
     then None
     else Some (map apiStatusToRefCheck statuses
                ++ map apiCheckRunToRefCheck (getLatestCheckRunsByName check_runs)))
  /\ (forall checks,
        result (run w sched (getChecksForRef r ref) n m) = Some checks ->
        length checks
        = length statuses + length (getLatestCheckRunsByName check_runs)
        /\ (forall i status,
              statuses !! i = Some status ->
              checks !! i = Some (apiStatusToRefCheck status))
        /\ (forall j check_run,
              getLatestCheckRunsByName check_runs !! j = Some check_run ->
              checks !! (length statuses + j)
              = Some (apiCheckRunToRefCheck check_run))).
Proof.
  intros Hacc Hst Hcr.
  rewrite run_getChecksForRef, Hacc. cbn [result].
  rewrite Hst, Hcr. unfold aggregated, concatenated.
  set (mapped := map apiStatusToRefCheck statuses).
  set (latest := getLatestCheckRunsByName check_runs).
  assert (match mapped ++ map apiCheckRunToRefCheck latest with
          | [] => None
          | c :: l => Some (c :: l)
          end
          = if decide (mapped ++ map apiCheckRunToRefCheck latest = [])
            then None else Some (mapped ++ map apiCheckRunToRefCheck latest))
    as -> by (by destruct (mapped ++ map apiCheckRunToRefCheck latest)).
  split; [done|].
  intros checks Hchecks. case_decide as Hnil; [done|].
  injection Hchecks as <-. subst mapped latest.
  split; [by rewrite length_app, !length_map|].
  split.
  - intros i status Hi.
    rewrite lookup_app_l by (rewrite length_map; by eapply lookup_lt_Some).
    by rewrite list_lookup_fmap, Hi.
  - intros j check_run Hj.
    rewrite <- (length_map apiStatusToRefCheck statuses) at 1.
    rewrite lookup_app_r by lia.
    replace (length (map apiStatusToRefCheck statuses) + j
             - length (map apiStatusToRefCheck statuses)) with j by lia.
    by rewrite list_lookup_fmap, Hj.
Qed.

(** C8.  [getNotificationsEnabled] returns the persisted value, [true] when
    none is persisted.  [setNotificationsEnabled v] does nothing when [v] is
    that value; otherwise it persists [v] and then calls
    [aliveStore.setEnabled v], without suspending; either way
    [getNotificationsEnabled] returns [v] afterwards. *)
Theorem setNotificationsEnabled_persists_changes w sched enabled n m :
  result (run w sched getNotificationsEnabled n m)
  = default true (localStorage m !! NotificationsEnabledKey)
  /\ run w sched (setNotificationsEnabled enabled) n m
     = (if decide (enabled = default true (localStorage m !! NotificationsEnabledKey))
        then {| result := tt; final := m; trace := []; suspensions := n |}
        else {| result := tt;
                final := {| this := this m;
                            localStorage :=
                              <[NotificationsEnabledKey := enabled]> (localStorage m) |};
                trace := [Performed (setBoolean NotificationsEnabledKey enabled);
                          Performed (aliveStore_setEnabled enabled)];
                suspensions := n |})
  /\ result (run w sched getNotificationsEnabled n
               (final (run w sched (setNotificationsEnabled enabled) n m)))
     = enabled.
Proof.
  split; [reflexivity|].
  unfold setNotificationsEnabled, getNotificationsEnabled.
  cbn [run bind getBoolean perform logged performed
       result final trace suspensions].
  destruct (default true (localStorage m !! NotificationsEnabledKey)) eqn:Hold,
    enabled; cbn [Bool.eqb]; (split; [by rewrite ?decide_True, ?decide_False by done|]);
    cbn [run bind getBoolean perform logged performed
         result final trace suspensions localStorage];
    by rewrite ?lookup_insert_eq, ?Hold.
Qed.

(** C9.  An event whose kind is not the checks-failed kind, that is whose
    [type] is not "pr-checks-failed", is ignored whatever else it carries:
    the handler returns at once, the machine is unchanged, nothing is called
    and nothing is shown. *)
Theorem other_events_are_ignored w sched e n m :
  DesktopAliveEvent.type e <> "pr-checks-failed" ->
  run w sched (onAliveEventReceived e) n m
  = {| result := tt; final := m; trace := []; suspensions := n |}.
Proof.
  intros Hkind. unfold onAliveEventReceived.
  by rewrite (proj2 (String.eqb_neq _ _) Hkind).
Qed.

(** *** The whole run of [handleChecksFailedEvent] *)

Lemma interfere_app acts1 acts2 s :
  interfere (acts1 ++ acts2) s = interfere acts2 (interfere acts1 s).
Proof. unfold interfere. by rewrite fold_left_app. Qed.

Lemma interfere_cachedCommits_set acts sha commit s :
  interfere acts (cachedCommits_set sha commit s)
  = cachedCommits_set sha commit (interfere acts s).
Proof.
  revert s. induction acts as [|a acts IH]; intros s; [done|].
  cbn. unfold interfere in IH. rewrite <- IH. by destruct a.
Qed.

Lemma interfere_skipCommitShas_add acts sha s :
  interfere acts (skipCommitShas_add sha s)
  = skipCommitShas_add sha (interfere acts s).
Proof.
  revert s. induction acts as [|a acts IH]; intros s; [done|].
  cbn. unfold interfere in IH. rewrite <- IH. by destruct a.
Qed.

Ltac settle :=
  unfold awaited, commitFetch, logged;
  try match goal with
      | H : cachedCommits _ !! _ = _ |- _ => rewrite H
      end;
  cbn [recorded scheduled map length Nat.add shownAt app
       result final trace suspensions];
  unfold resumed, updated; cbn [this localStorage];
  rewrite ?interfere_cachedCommits_set, ?interfere_skipCommitShas_add,
    <- ?interfere_app, ?app_nil_r, <- ?app_assoc;
  cbn [repository cachedCommits_set skipCommitShas_add].

Lemma run_handleChecksFailedEvent w sched event n m :
  run w sched (handleChecksFailedEvent event) n m
  = {| result := tt;
       final :=
         {| this :=
              recorded (commit_sha event) (verdict w (this m) event)
                (interfere
                   (scheduled sched n
                      (awaited (this m) (commit_sha event)
                         (verdict w (this m) event)))
                   (this m));
            localStorage := localStorage m |};
       trace :=
         map Called (awaited (this m) (commit_sha event) (verdict w (this m) event))
         ++ shownAt (commit_sha event) (verdict w (this m) event)
              (repository
                 (interfere
                    (scheduled sched n
                       (awaited (this m) (commit_sha event)
                          (verdict w (this m) event)))
                    (this m)));
       suspensions :=
         length (awaited (this m) (commit_sha event) (verdict w (this m) event))
         + n |}.
Proof.
  unfold verdict, handleChecksFailedEvent. handler_step.
  destruct (repository (this m)) as [r|] eqn:Hr; [|by destruct m].
  handler_step.
  change (find _ (pullRequests w r)) with (pullRequestFor w r event).
  destruct (pullRequestFor w r event) as [pr|]; handler_step;
    [|by settle].
  rewrite run_bind, run_getAccountForRepository. handler_step.
  destruct (accountFor w _) as [account|] eqn:Hacc; handler_step;
    [|by settle].
  rewrite !resumed_skipCommitShas.
  destruct (decide (commit_sha event ∈ skipCommitShas (this m))) as [Hin|Hin];
    [rewrite (bool_decide_true _ Hin)|rewrite (bool_decide_false _ Hin)];
    handler_step; [by settle|].
  rewrite !resumed_cachedCommits. unfold resolvedCommit.
  destruct (cachedCommits (this m) !! commit_sha event) as [commit|] eqn:Hcached;
    handler_step; [|destruct (commits w r (commit_sha event)) as [commit|]];
    handler_step.
  3: by settle.
  all: destruct (decide (authoredBy account commit)) as [Hauth|Hauth];
    [rewrite (bool_decide_true _ Hauth)|rewrite (bool_decide_false _ Hauth)];
    cbn [negb]; handler_step.
  2,4: by settle.
  all: rewrite run_bind, run_getChecksForRef, Hacc;
    cbn [result final trace suspensions];
    destruct (aggregated _ _) as [checks|]; handler_step;
    rewrite ?run_postChecksFailedNotification;
    settle; try done.
  all: by destruct (repository (interfere _ (this m))).
Qed.

(** Reading a run off its verdict. *)

Lemma callsOf_app tr1 tr2 : callsOf (tr1 ++ tr2) = callsOf tr1 ++ callsOf tr2.
Proof. unfold callsOf. apply omap_app. Qed.

Lemma shownIn_app tr1 tr2 : shownIn (tr1 ++ tr2) = shownIn tr1 ++ shownIn tr2.
Proof. unfold shownIn. apply omap_app. Qed.

Lemma callsOf_Called calls : callsOf (map Called calls) = calls.
Proof.
  unfold callsOf. induction calls as [|c calls IH]; [done|]. cbn. by rewrite IH.
Qed.

Lemma shownIn_Called calls : shownIn (map Called calls) = [].
Proof. by induction calls. Qed.

Lemma callsOf_shownAt sha v selected : callsOf (shownAt sha v selected) = [].
Proof.
  destruct v, selected; try done. cbn.
  by destruct (decide (numberOfFailedChecks checks = 0)).
Qed.

Lemma scheduled_app sched n calls1 calls2 :
  scheduled sched n (calls1 ++ calls2)
  = scheduled sched n calls1 ++ scheduled sched (length calls1 + n) calls2.
Proof.
  revert n. induction calls1 as [|c calls1 IH]; intros n; [done|].
  cbn. rewrite IH, <- app_assoc. do 3 f_equal. lia.
Qed.

Lemma scheduled_quiet n calls : scheduled quiet n calls = [].
Proof. revert n. induction calls as [|c calls IH]; intros n; [done|]. apply IH. Qed.

Lemma recorded_repository sha v s : repository (recorded sha v s) = repository s.
Proof. by destruct v. Qed.

Lemma recorded_onChecksFailedCallback sha v s :
  onChecksFailedCallback (recorded sha v s) = onChecksFailedCallback s.
Proof. by destruct v. Qed.

Lemma verdict_Dispatched w s event r pr account commit checks :
  verdict w s event = Dispatched r pr account commit checks <->
  repository s = Some r
  /\ pullRequestFor w r event = Some pr
  /\ accountFor w (RepositoryWithGitHubRepository.gitHubRepository r) = Some account
  /\ (commit_sha event ∉ skipCommitShas s)
  /\ resolvedCommit w s r (commit_sha event) = Some commit
  /\ authoredBy account commit
  /\ aggregated
       (statusesFor w account r (PullRequest.ref (PullRequest.head pr)))
       (checkRunsFor w account r (PullRequest.ref (PullRequest.head pr)))
     = Some checks.
Proof.
  unfold verdict. split.
  - intros Hv. repeat case_match; try discriminate. by simplify_eq.
  - intros (-> & -> & -> & Hskip & -> & Hauth & ->).
    by rewrite decide_False, decide_True.
Qed.

(** The commit a verdict carries was resolved for the SHA. *)
Lemma recorded_caches w s event s' :
  cachedCommits s' = cachedCommits s ->
  skipCommitShas s' = skipCommitShas s ->
  cachedCommits s ⊆ cachedCommits (recorded (commit_sha event) (verdict w s event) s')
  /\ skipCommitShas s ⊆ skipCommitShas (recorded (commit_sha event) (verdict w s event) s').
Proof.
  intros Hc Hs. unfold verdict, resolvedCommit.
  repeat case_match; simplify_eq;
    cbn [recorded cachedCommits skipCommitShas cachedCommits_set skipCommitShas_add];
    rewrite ?Hc, ?Hs;
    (split; [|first [done | apply union_subseteq_r]]);
    first [ done
          | by rewrite insert_id
          | by apply insert_subseteq ].
Qed.

(** C10.  If the application selects another repository linked to GitHub
    while a qualifying event is in flight, at whichever suspension and
    whatever else it does there, so that this repository is the selection
    when the handler resumes from the check fetch, the notification is still
    shown, and a click hands the observer that repository together with the
    pull request, the checks, the SHA and the commit summary resolved
    through the repository selected when the event arrived. *)
Theorem notification_shown_after_switch
    w sched event n m r1 pr account commit checks r2 :
  repository (this m) = Some r1 ->
  pullRequestFor w r1 event = Some pr ->
  accountFor w (RepositoryWithGitHubRepository.gitHubRepository r1) = Some account ->
  commit_sha event ∉ skipCommitShas (this m) ->
  resolvedCommit w (this m) r1 (commit_sha event) = Some commit ->
  authoredBy account commit ->
  aggregated
    (statusesFor w account r1 (PullRequest.ref (PullRequest.head pr)))
    (checkRunsFor w account r1 (PullRequest.ref (PullRequest.head pr)))
  = Some checks ->
  0 < numberOfFailedChecks checks ->
  selectionAtDispatch sched n (this m) r1 account pr (commit_sha event) = Some r2 ->
  repository (this (final (run w sched (handleChecksFailedEvent event) n m)))
  = Some r2
  /\ exists notification,
       last (trace (run w sched (handleChecksFailedEvent event) n m))
       = Some (Performed (show notification))
       /\ shownIn (trace (run w sched (handleChecksFailedEvent event) n m))
          = [notification]
       /\ onClick notification
          = {| arg_repository := r2;
               arg_pullRequest := pr;
               arg_commitMessage := Commit.summary commit;
               arg_commitSha := commit_sha event;
               arg_checkRuns := checks |}
       /\ forall w' sched' n' m' callback,
            onChecksFailedCallback (this m') = Some callback ->
            trace (run w' sched' (click notification) n' m')
            = [Performed (invoke callback
                            {| arg_repository := r2;
                               arg_pullRequest := pr;
                               arg_commitMessage := Commit.summary commit;
                               arg_commitSha := commit_sha event;
                               arg_checkRuns := checks |})].
Proof.
  intros Hr Hpr Hacc Hskip Hcommit Hauth Hchecks Hfailed Hsel.
  rewrite run_handleChecksFailedEvent. cbn [trace final this].
  rewrite (proj2 (verdict_Dispatched w (this m) event r1 pr account commit checks))
    by done.
  unfold selectionAtDispatch in Hsel.
  cbn [recorded awaited shownAt repository cachedCommits_set].
  rewrite Hsel, decide_False by lia.
  split; [done|].
  exists (checksFailedNotification r2 pr checks (commit_sha event)
            (Commit.summary commit)).
  split; [by rewrite last_app|].
  split; [by rewrite shownIn_app, shownIn_Called|].
  split; [reflexivity|].
  intros w' sched' n' m'' callback Hcb. unfold click.
  cbn [run bind read]. by rewrite Hcb.
Qed.

(** *** Further properties of [handleChecksFailedEvent] *)

(** X1.  No false positives: whenever the handler shows a notification, a
    repository was selected when the event arrived, the event's pull request
    is one of that repository's, an account matches its endpoint, the SHA
    was not in the Skip Set, the commit was written under one of the
    account's emails, and the fetched checks contain a failure; the
    notification is the one for that pull request, those checks, that SHA
    and that commit's summary. *)
Theorem notification_implies_qualifying_event w sched event n m notification :
  Performed (show notification)
    ∈ trace (run w sched (handleChecksFailedEvent event) n m) ->
  exists r pr account commit checks r',
    repository (this m) = Some r
    /\ pullRequestFor w r event = Some pr
    /\ accountFor w (RepositoryWithGitHubRepository.gitHubRepository r)
       = Some account
    /\ (commit_sha event ∉ skipCommitShas (this m))
    /\ resolvedCommit w (this m) r (commit_sha event) = Some commit
    /\ authoredBy account commit
    /\ aggregated
         (statusesFor w account r (PullRequest.ref (PullRequest.head pr)))
         (checkRunsFor w account r (PullRequest.ref (PullRequest.head pr)))
       = Some checks
    /\ 0 < numberOfFailedChecks checks
    /\ notification
       = checksFailedNotification r' pr checks (commit_sha event)
           (Commit.summary commit).
Proof.
  rewrite run_handleChecksFailedEvent. cbn [trace].
  intros [Hin|Hin]%elem_of_app.
  - apply list_elem_of_fmap in Hin as (c & Hc & _). discriminate.
  - destruct (verdict w (this m) event) as [| | | | | | |r pr account commit checks]
      eqn:Hv; try by apply elem_of_nil in Hin.
    cbn [shownAt] in Hin.
    destruct (repository _) as [r'|]; [|by apply elem_of_nil in Hin].
    destruct (decide (numberOfFailedChecks checks = 0)) as [|Hfailed];
      [by apply elem_of_nil in Hin|].
    apply list_elem_of_singleton in Hin. injection Hin as ->.
    apply verdict_Dispatched in Hv as (? & ? & ? & ? & ? & ? & ?).
    exists r, pr, account, commit, checks, r'.
    repeat split; try done. lia.
Qed.

(** X2.  Every call of a run precedes what it shows, and a run shows at most
    one notification. *)
Theorem at_most_one_notification_after_all_calls w sched event n m :
  trace (run w sched (handleChecksFailedEvent event) n m)
  = map Called (callsOf (trace (run w sched (handleChecksFailedEvent event) n m)))
    ++ map (fun nt => Performed (show nt))
         (shownIn (trace (run w sched (handleChecksFailedEvent event) n m)))
  /\ length (shownIn (trace (run w sched (handleChecksFailedEvent event) n m))) <= 1.
Proof.
  rewrite run_handleChecksFailedEvent. cbn [trace].
  rewrite callsOf_app, shownIn_app, callsOf_Called, shownIn_Called,
    callsOf_shownAt, app_nil_r.
  cbn [app].
  destruct (verdict w (this m) event); cbn [shownAt];
    try (split; [done|cbn; lia]).
  destruct (repository _); [|split; [done|cbn; lia]].
  destruct (decide (numberOfFailedChecks checks = 0));
    (split; [done|cbn; lia]).
Qed.

(** X3.  The two caches only grow: every cached commit is still cached
    under its SHA with the same value, and every skipped SHA is still
    skipped. *)
Theorem caches_only_grow w sched event n m :
  cachedCommits (this m)
    ⊆ cachedCommits (this (final (run w sched (handleChecksFailedEvent event) n m)))
  /\ skipCommitShas (this m)
       ⊆ skipCommitShas (this (final (run w sched (handleChecksFailedEvent event) n m))).
Proof.
  rewrite run_handleChecksFailedEvent. cbn [final this].
  apply recorded_caches.
  - apply interfere_cachedCommits.
  - apply interfere_skipCommitShas.
Qed.

(** X4.  The handler assigns neither the selection nor the observer and
    never writes the persisted settings: left alone by the application, it
    changes nothing but the two caches. *)
Theorem handler_touches_only_the_caches w sched event n m :
  localStorage (final (run w sched (handleChecksFailedEvent event) n m))
  = localStorage m
  /\ repository (this (final (run w quiet (handleChecksFailedEvent event) n m)))
     = repository (this m)
  /\ onChecksFailedCallback
       (this (final (run w quiet (handleChecksFailedEvent event) n m)))
     = onChecksFailedCallback (this m).
Proof.
  rewrite !run_handleChecksFailedEvent. cbn [final this localStorage].
  by rewrite recorded_repository, recorded_onChecksFailedCallback, scheduled_quiet.
Qed.

(** X5.  If no repository linked to GitHub is selected when the handler
    returns, it has shown no notification, whatever the event: a selection
    of a repository without a GitHub remote made in flight, at whichever
    suspension, and not followed by another selection suppresses the
    notification. *)
Theorem deselection_suppresses_notification w sched event n m :
  repository (this (final (run w sched (handleChecksFailedEvent event) n m)))
  = None ->
  shownIn (trace (run w sched (handleChecksFailedEvent event) n m)) = [].
Proof.
  rewrite run_handleChecksFailedEvent. cbn [trace final this].
  rewrite recorded_repository, shownIn_app, shownIn_Called. cbn [app].
  intros ->. by destruct (verdict w (this m) event).
Qed.

(** X6.  Left alone by the application, a qualifying event performs, in this
    order, the pull-request list fetch, the account lookup, the commit fetch
    unless the commit is cached, the account lookup of [getChecksForRef] and
    the two check fetches, and then shows the notification for the selected
    repository if some check failed, and nothing if none did. *)
Theorem qualifying_event_is_notified w event n m r pr account commit checks :
  repository (this m) = Some r ->
  pullRequestFor w r event = Some pr ->
  accountFor w (RepositoryWithGitHubRepository.gitHubRepository r) = Some account ->
  commit_sha event ∉ skipCommitShas (this m) ->
  resolvedCommit w (this m) r (commit_sha event) = Some commit ->
  authoredBy account commit ->
  aggregated
    (statusesFor w account r (PullRequest.ref (PullRequest.head pr)))
    (checkRunsFor w account r (PullRequest.ref (PullRequest.head pr)))
  = Some checks ->
  trace (run w quiet (handleChecksFailedEvent event) n m)
  = [Called (getAllPullRequests r); Called accountsStore_getAll]
    ++ match cachedCommits (this m) !! commit_sha event with
       | Some _ => []
       | None => [Called (getCommit r (commit_sha event))]
       end
    ++ [Called accountsStore_getAll;
        Called (checkFetch account r (PullRequest.ref (PullRequest.head pr)))]
    ++ (if decide (numberOfFailedChecks checks = 0) then []
        else [Performed (show (checksFailedNotification r pr checks
                                 (commit_sha event) (Commit.summary commit)))]).
Proof.
  intros Hr Hpr Hacc Hskip Hres Hauth Hchecks.
  rewrite run_handleChecksFailedEvent. cbn [trace].
  rewrite (proj2 (verdict_Dispatched w (this m) event r pr account commit checks))
    by done.
  rewrite scheduled_quiet. cbn [interfere fold_left shownAt]. rewrite Hr.
  unfold awaited, commitFetch.
  by destruct (cachedCommits (this m) !! commit_sha event).
Qed.

(** A cached commit is not fetched. *)
Lemma cached_commit_is_not_fetched w sched event n m commit :
  cachedCommits (this m) !! commit_sha event = Some commit ->
  Forall (fun l => ~ isCommitFetch l)
    (trace (run w sched (handleChecksFailedEvent event) n m)).
Proof.
  intros Hcached. rewrite run_handleChecksFailedEvent. cbn [trace].
  apply Forall_app. split.
  - unfold awaited, commitFetch. rewrite Hcached.
    destruct (verdict w (this m) event); cbn; repeat constructor; cbn; tauto.
  - destruct (verdict w (this m) event); cbn [shownAt]; try constructor.
    destruct (repository _); [|constructor].
    destruct (decide _); repeat constructor. cbn. tauto.
Qed.

(** X7.  A commit is fetched at most once: after an event that resolved its
    commit, no later event with the same SHA calls [getCommit], in any
    world and under any schedule. *)
Theorem resolved_commit_is_not_fetched_again
    w sched event n m r pr account commit :
  repository (this m) = Some r ->
  pullRequestFor w r event = Some pr ->
  accountFor w (RepositoryWithGitHubRepository.gitHubRepository r) = Some account ->
  commit_sha event ∉ skipCommitShas (this m) ->
  resolvedCommit w (this m) r (commit_sha event) = Some commit ->
  forall w' sched' event' n' m',
    commit_sha event' = commit_sha event ->
    cachedCommits (this (final (run w sched (handleChecksFailedEvent event) n m)))
      ⊆ cachedCommits (this m') ->
    Forall (fun l => ~ isCommitFetch l)
      (trace (run w' sched' (handleChecksFailedEvent event') n' m')).
Proof.
  intros Hr Hpr Hacc Hskip Hres w' sched' event' n' m' Hsha Hsub.
  destruct (caches_after_resolution w sched event n m r pr account Hr Hpr Hacc Hskip)
    as [Hcache _].
  rewrite Hres in Hcache. rewrite Hcache in Hsub.
  apply (cached_commit_is_not_fetched w' sched' event' n' m' commit).
  rewrite Hsha. eapply lookup_weaken; [|exact Hsub]. apply lookup_insert_eq.
Qed.

(** X8.  An event whose commit is neither cached nor found by [getCommit]
    stops after the commit fetch: it makes no check fetch and shows
    nothing, adds the SHA to the Skip Set and leaves the Commit Cache as it
    is. *)
Theorem unresolvable_commit_is_skipped w sched event n m r pr account :
  repository (this m) = Some r ->
  pullRequestFor w r event = Some pr ->
  accountFor w (RepositoryWithGitHubRepository.gitHubRepository r) = Some account ->
  commit_sha event ∉ skipCommitShas (this m) ->
  resolvedCommit w (this m) r (commit_sha event) = None ->
  trace (run w sched (handleChecksFailedEvent event) n m)
  = [Called (getAllPullRequests r); Called accountsStore_getAll;
     Called (getCommit r (commit_sha event))]
  /\ cachedCommits (this (final (run w sched (handleChecksFailedEvent event) n m)))
     = cachedCommits (this m)
  /\ skipCommitShas (this (final (run w sched (handleChecksFailedEvent event) n m)))
     = {[commit_sha event]} ∪ skipCommitShas (this m).
Proof.
  intros Hr Hpr Hacc Hskip Hres.
  rewrite run_handleChecksFailedEvent. cbn [trace final this].
  assert (verdict w (this m) event = CommitUnresolvable r pr account) as ->.
  { unfold verdict. by rewrite Hr, Hpr, Hacc, decide_False, Hres. }
  unfold resolvedCommit in Hres.
  cbn [awaited recorded shownAt skipCommitShas_add cachedCommits skipCommitShas].
  unfold commitFetch.
  destruct (cachedCommits (this m) !! commit_sha event); [discriminate|].
  by rewrite interfere_cachedCommits, interfere_skipCommitShas.
Qed.

(** X9.  An event that cannot be attributed, because its pull request is
    not among the selected repository's or because no account matches the
    repository's endpoint, fetches no commit and no checks, shows nothing
    and leaves both caches as they are. *)
Theorem unattributed_event_is_dropped w sched event n m r :
  repository (this m) = Some r ->
  pullRequestFor w r event = None
  \/ accountFor w (RepositoryWithGitHubRepository.gitHubRepository r) = None ->
  trace (run w sched (handleChecksFailedEvent event) n m)
  = Called (getAllPullRequests r)
    :: match pullRequestFor w r event with
       | None => []
       | Some _ => [Called accountsStore_getAll]
       end
  /\ cachedCommits (this (final (run w sched (handleChecksFailedEvent event) n m)))
     = cachedCommits (this m)
  /\ skipCommitShas (this (final (run w sched (handleChecksFailedEvent event) n m)))
     = skipCommitShas (this m).
Proof.
  intros Hr Hnone.
  rewrite run_handleChecksFailedEvent. cbn [trace final this].
  unfold verdict. rewrite Hr.
  destruct (pullRequestFor w r event) as [pr|].
  - destruct Hnone as [|Hacc]; [discriminate|]. rewrite Hacc.
    cbn [awaited recorded shownAt map app].
    by rewrite interfere_cachedCommits, interfere_skipCommitShas.
  - cbn [awaited recorded shownAt map app].
    by rewrite interfere_cachedCommits, interfere_skipCommitShas.
Qed.

(** X10.  After a repository without a GitHub remote has been selected, and
    in a store in which none has been selected yet, an event is ignored
    altogether: nothing is called, shown or recorded. *)
Theorem events_are_ignored_without_github_repository
    w sched event n s storage repo :
  isRepositoryWithGitHubRepository repo = None ->
  run w sched (handleChecksFailedEvent event) n
    {| this := selectRepository repo s; localStorage := storage |}
  = {| result := tt;
       final := {| this := selectRepository repo s; localStorage := storage |};
       trace := []; suspensions := n |}
  /\ run w sched (handleChecksFailedEvent event) n
       {| this := newStore; localStorage := storage |}
     = {| result := tt;
          final := {| this := newStore; localStorage := storage |};
          trace := []; suspensions := n |}.
Proof.
  intros Hnone. split; [|reflexivity].
  unfold handleChecksFailedEvent. handler_step.
  cbn [this selectRepository set_repository repository]. by rewrite Hnone.
Qed.

(** X11.  What the application does while an event is in flight changes
    neither the calls the handler makes nor what it records in the two
    caches. *)
Theorem calls_and_caches_do_not_depend_on_the_schedule
    w sched sched' event n m :
  callsOf (trace (run w sched (handleChecksFailedEvent event) n m))
  = callsOf (trace (run w sched' (handleChecksFailedEvent event) n m))
  /\ cachedCommits (this (final (run w sched (handleChecksFailedEvent event) n m)))
     = cachedCommits (this (final (run w sched' (handleChecksFailedEvent event) n m)))
  /\ skipCommitShas (this (final (run w sched (handleChecksFailedEvent event) n m)))
     = skipCommitShas (this (final (run w sched' (handleChecksFailedEvent event) n m))).
Proof.
  rewrite !run_handleChecksFailedEvent. cbn [trace final this].
  rewrite !callsOf_app, !callsOf_Called, !callsOf_shownAt.
  split; [done|].
  destruct (verdict w (this m) event);
    cbn [recorded cachedCommits skipCommitShas cachedCommits_set skipCommitShas_add];
    by rewrite !interfere_cachedCommits, !interfere_skipCommitShas.
Qed.

(** X13.  Every fetch of a run is made for the repository that was selected
    when the event arrived, even if the selection changes in flight: the
    pull-request list and the commit are fetched for that repository, and
    the checks for its owner, its name and the head ref of the event's pull
    request, with the client of the account that matches its endpoint. *)
Theorem fetches_are_for_the_repository_at_arrival w sched event n m r :
  repository (this m) = Some r ->
  Forall
    (fun c =>
       c = getAllPullRequests r
       \/ c = accountsStore_getAll
       \/ c = getCommit r (commit_sha event)
       \/ exists account pr,
            accountFor w (RepositoryWithGitHubRepository.gitHubRepository r)
            = Some account
            /\ pullRequestFor w r event = Some pr
            /\ c = checkFetch account r (PullRequest.ref (PullRequest.head pr)))
    (callsOf (trace (run w sched (handleChecksFailedEvent event) n m))).
Proof.
  intros Hr.
  rewrite run_handleChecksFailedEvent. cbn [trace].
  rewrite callsOf_app, callsOf_Called, callsOf_shownAt, app_nil_r.
  unfold verdict, awaited, commitFetch. rewrite Hr.
  repeat case_match; simplify_eq; cbn [app];
    repeat first [apply Forall_nil_2 | apply Forall_cons_2];
    first [ by left | by right; left | by right; right; left
          | by (right; right; right; eauto) ].
Qed.

(** *** The other methods *)

Lemma find_first {A} (p : A -> bool) (l : list A) :
  match find p l with
  | Some x =>
      p x = true
      /\ exists before after,
           l = before ++ x :: after /\ Forall (fun a => p a = false) before
  | None => Forall (fun a => p a = false) l
  end.
Proof.
  induction l as [|a l IH]; cbn; [constructor|].
  destruct (p a) eqn:Hp.
  - split; [done|]. by exists [], l.
  - destruct (find p l) as [x|].
    + destruct IH as (Hx & before & after & -> & Hbefore).
      split; [done|]. exists (a :: before), after. split; [done|].
      by constructor.
    + by constructor.
Qed.

(** X14.  [getAccountForRepository] makes one call and returns the first
    signed-in account whose endpoint is the repository's, and null exactly
    when no signed-in account has that endpoint. *)
Theorem getAccountForRepository_first_match w sched gh n m :
  trace (run w sched (getAccountForRepository gh) n m)
  = [Called accountsStore_getAll]
  /\ match result (run w sched (getAccountForRepository gh) n m) with
     | Some account =>
         Account.endpoint account = GitHubRepository.endpoint gh
         /\ exists before after,
              accounts w = before ++ account :: after
              /\ Forall (fun a => Account.endpoint a <> GitHubRepository.endpoint gh)
                   before
     | None =>
         Forall (fun a => Account.endpoint a <> GitHubRepository.endpoint gh)
           (accounts w)
     end.
Proof.
  rewrite run_getAccountForRepository. cbn [trace result]. split; [done|].
  unfold accountFor.
  pose proof (find_first
                (fun a => String.eqb (Account.endpoint a) (GitHubRepository.endpoint gh))
                (accounts w)) as Hfind.
  destruct (find _ (accounts w)) as [account|].
  - destruct Hfind as (Heq & before & after & Hsplit & Hbefore).
    split; [by apply String.eqb_eq|].
    exists before, after. split; [done|].
    eapply Forall_impl; [exact Hbefore|]. intros a Ha. by apply String.eqb_neq.
  - eapply Forall_impl; [exact Hfind|]. intros a Ha. by apply String.eqb_neq.
Qed.

(** X15.  [getChecksForRef] never returns an empty list.  It fetches only
    with the client of an account whose endpoint is the repository's, for
    the repository's owner and name and the given ref.  It neither reads nor
    assigns a field of the store: its result is the same in every machine
    and under every schedule, and left alone it leaves the machine as it
    is. *)
Theorem getChecksForRef_requests_and_frame w sched r ref n m :
  result (run w sched (getChecksForRef r ref) n m) <> Some []
  /\ (trace (run w sched (getChecksForRef r ref) n m) = [Called accountsStore_getAll]
      \/ exists account,
           In account (accounts w)
           /\ Account.endpoint account
              = GitHubRepository.endpoint
                  (RepositoryWithGitHubRepository.gitHubRepository r)
           /\ trace (run w sched (getChecksForRef r ref) n m)
              = [Called accountsStore_getAll;
                 Called (PromiseAll
                   (fetchCombinedRefStatus (API.fromAccount account)
                      (GitHubRepository.login
                         (GitHubRepository.owner
                            (RepositoryWithGitHubRepository.gitHubRepository r)))
                      (GitHubRepository.name
                         (RepositoryWithGitHubRepository.gitHubRepository r))
                      ref)
                   (fetchRefCheckRuns (API.fromAccount account)
                      (GitHubRepository.login
                         (GitHubRepository.owner
                            (RepositoryWithGitHubRepository.gitHubRepository r)))
                      (GitHubRepository.name
                         (RepositoryWithGitHubRepository.gitHubRepository r))
                      ref))])
  /\ final (run w quiet (getChecksForRef r ref) n m) = m
  /\ forall sched' n' m',
       result (run w sched' (getChecksForRef r ref) n' m')
       = result (run w sched (getChecksForRef r ref) n m).
Proof.
  rewrite !run_getChecksForRef.
  destruct (accountFor w _) as [account|] eqn:Hacc; cbn [result trace final].
  - split.
    { unfold aggregated.
      destruct (statusesFor w account r ref); [|done].
      destruct (checkRunsFor w account r ref); [|done].
      by destruct (concatenated _ _). }
    split.
    { right. exists account. unfold accountFor in Hacc.
      split; [by apply find_some in Hacc as [? _]|].
      split; [|done].
      apply find_some in Hacc as [_ Heq]. by apply String.eqb_eq. }
    split; [by destruct m|].
    intros sched' n' m'. by rewrite run_getChecksForRef, Hacc.
  - split; [done|]. split; [by left|]. split; [by destruct m|].
    intros sched' n' m'. by rewrite run_getChecksForRef, Hacc.
Qed.

(** X16.  [setNotificationsEnabled] never suspends, assigns no field of the
    store and writes no persisted setting other than its own key. *)
Theorem setNotificationsEnabled_touches_one_key w sched enabled n m :
  suspensions (run w sched (setNotificationsEnabled enabled) n m) = n
  /\ this (final (run w sched (setNotificationsEnabled enabled) n m)) = this m
  /\ delete NotificationsEnabledKey
       (localStorage (final (run w sched (setNotificationsEnabled enabled) n m)))
     = delete NotificationsEnabledKey (localStorage m).
Proof.
  unfold setNotificationsEnabled.
  cbn [run bind getBoolean perform logged performed
       result final trace suspensions].
  destruct (Bool.eqb _ enabled);
    cbn [run bind getBoolean perform logged performed
         result final trace suspensions this localStorage];
    repeat split; try done.
  apply delete_insert_eq.
Qed.

(** X17.  Of two settings in a row, the second writes the setting and
    calls [aliveStore.setEnabled] exactly when it differs from the first,
    whatever was persisted before. *)
Theorem setNotificationsEnabled_twice w sched first second n m :
  trace (run w sched (setNotificationsEnabled second) n
           (final (run w sched (setNotificationsEnabled first) n m)))
  = if decide (second = first) then []
    else [Performed (setBoolean NotificationsEnabledKey second);
          Performed (aliveStore_setEnabled second)].
Proof.
  unfold setNotificationsEnabled.
  cbn [run bind getBoolean perform logged performed
       result final trace suspensions].
  destruct (default true (localStorage m !! NotificationsEnabledKey)) eqn:Hold,
    first, second;
    cbn [Bool.eqb run bind getBoolean perform logged performed
         result final trace suspensions localStorage];
    rewrite ?lookup_insert_eq, ?Hold; reflexivity.
Qed.

(** X18.  The constructor enables the Alive subscription according to the
    persisted setting and then subscribes the handler: with the value last
    set by [setNotificationsEnabled], and with [true] when nothing is
    persisted.  It changes neither the store nor the settings. *)
Theorem constructor_follows_persisted_setting w sched enabled n m s :
  trace (run w sched constructor n
           (final (run w sched (setNotificationsEnabled enabled) n m)))
  = [Performed (aliveStore_setEnabled enabled);
     Performed aliveStore_onAliveEventReceived]
  /\ trace (run w sched constructor n {| this := s; localStorage := ∅ |})
     = [Performed (aliveStore_setEnabled true);
        Performed aliveStore_onAliveEventReceived]
  /\ final (run w sched constructor n m) = m.
Proof.
  split; [|split; reflexivity].
  unfold constructor, getNotificationsEnabled, setNotificationsEnabled.
  cbn [run bind getBoolean perform logged performed
       result final trace suspensions].
  destruct (default true (localStorage m !! NotificationsEnabledKey)) eqn:Hold,
    enabled;
    cbn [Bool.eqb run bind getBoolean perform logged performed
         result final trace suspensions localStorage];
    rewrite ?lookup_insert_eq, ?Hold; reflexivity.
Qed.

Lemma interfere_selections_callback repos s :
  onChecksFailedCallback (interfere (map SelectRepository repos) s)
  = onChecksFailedCallback s.
Proof.
  revert s. induction repos as [|repo repos IH]; intros s; [done|].
  cbn. unfold interfere in IH. by rewrite IH.
Qed.

(** X19.  A click calls the observer registered last, once, with what the
    notification captured, whatever was registered before; while no
    observer has been registered, however often a repository has been
    selected, a click does nothing.  Either way the machine is unchanged. *)
Theorem click_calls_the_observer_registered_last
    w sched notification n s storage callback repos :
  run w sched (click notification) n
    {| this := onChecksFailedNotification callback s; localStorage := storage |}
  = {| result := tt;
       final := {| this := onChecksFailedNotification callback s;
                   localStorage := storage |};
       trace := [Performed (invoke callback (onClick notification))];
       suspensions := n |}
  /\ run w sched (click notification) n
       {| this := interfere (map SelectRepository repos) newStore;
          localStorage := storage |}
     = {| result := tt;
          final := {| this := interfere (map SelectRepository repos) newStore;
                      localStorage := storage |};
          trace := []; suspensions := n |}.
Proof.
  split; [reflexivity|].
  unfold click. cbn [run bind read this].
  by rewrite interfere_selections_callback.
Qed.

(** X20.  While no repository is selected, [postChecksFailedNotification]
    shows nothing, whatever the checks; it returns at once and leaves the
    machine as it is. *)
Theorem nothing_is_posted_without_selection w sched pr checks sha msg n m :
  repository (this m) = None ->
  run w sched (postChecksFailedNotification pr checks sha msg) n m
  = {| result := tt; final := m; trace := []; suspensions := n |}.
Proof.
  intros Hnone. by rewrite run_postChecksFailedNotification, Hnone.
Qed.


End Properties.

(** ** Concrete runs in the sample world *)

Section Runs.

Import Sample.

Ltac evaluate := apply (bool_decide_unpack _); vm_compute; exact I.

(** C1.  The code does not suppress the notification for the stale
    repository: [repoA] is selected when the event for its pull request 42
    arrives, the user selects [repoB] while the checks are fetched, and the
    notification for pull request 42 is shown all the same, although 42 is
    not a pull request of [repoB].  Only a switch to a repository without a
    GitHub remote suppresses it. *)
Theorem stale_notification_is_shown_after_switch :
  repository (this start) = Some selectedA
  /\ selectedB <> selectedA
  /\ pullRequests world selectedB = []
  /\ repository
       (this (final (run world (switchDuringCheckFetch repoB)
                       (handleChecksFailedEvent (checksFailed "abc1234567890"))
                       0 start)))
     = Some selectedB
  /\ last (trace (run world (switchDuringCheckFetch repoB)
                    (handleChecksFailedEvent (checksFailed "abc1234567890"))
                    0 start))
     = Some (Performed (show (checksFailedNotification selectedB pr42
                                sampleChecks "abc1234567890" "Fix the build")))
  /\ Forall (fun l => ~ isShow l)
       (trace (run world (switchDuringCheckFetch repoLocal)
                 (handleChecksFailedEvent (checksFailed "abc1234567890"))
                 0 start)).
Proof.
  split; [reflexivity|]. split; [discriminate|]. split; [reflexivity|].
  split; [by vm_compute|]. split; [by vm_compute|].
  vm_compute. repeat constructor; tauto.
Qed.

(** C2 fails as stated: after an event whose commit was written by somebody
    else, the commit SHA is both in the Commit Cache and in the Skip Set. *)
Lemma rejected_commit_is_in_both :
  "def4567890123"
    ∈ skipCommitShas
        (this (final (run world quiet
                        (handleChecksFailedEvent (checksFailed "def4567890123"))
                        0 start)))
  /\ cachedCommits
       (this (final (run world quiet
                       (handleChecksFailedEvent (checksFailed "def4567890123"))
                       0 start)))
     !! "def4567890123" = Some theirs.
Proof. split; [evaluate|by vm_compute]. Qed.

(** C3 fails as stated: the second event for a skipped SHA returns only
    after it has fetched the pull-request list and looked the account up. *)
Lemma skipped_event_still_calls_collaborators :
  ~ authoredBy me theirs
  /\ "def4567890123"
       ∈ skipCommitShas
           (this (final (run world quiet
                           (handleChecksFailedEvent (checksFailed "def4567890123"))
                           0 start)))
  /\ trace (run world quiet
              (handleChecksFailedEvent (checksFailed "def4567890123")) 0
              (final (run world quiet
                        (handleChecksFailedEvent (checksFailed "def4567890123"))
                        0 start)))
     = [Called (getAllPullRequests selectedA); Called accountsStore_getAll].
Proof. split; [evaluate|]. split; [evaluate|by vm_compute]. Qed.

(** C4 fails as stated: with nobody signed in, neither fetch yields null
    (neither is made, and both would answer), the combined list would not be
    empty, and still [getChecksForRef] returns null. *)
Lemma getChecksForRef_null_when_signed_out :
  (forall api, combinedRefStatus signedOut api "octocat" "hello" "fix-build"
               = Some [lint])
  /\ (forall api, refCheckRuns signedOut api "octocat" "hello" "fix-build"
                  = Some [build1; build2])
  /\ concatenated [lint] [build1; build2] = sampleChecks
  /\ run signedOut quiet (getChecksForRef selectedA "fix-build") 0 start
     = {| result := None; final := start;
          trace := [Called accountsStore_getAll]; suspensions := 1 |}.
Proof. repeat split. Qed.

(** The amended C2 at the rejected commit of the sample world. *)
Lemma commit_cached_and_skipped_on_mismatch_witness :
  cachedCommits
    (this (final (run world quiet
                    (handleChecksFailedEvent (checksFailed "def4567890123"))
                    0 start)))
  !! "def4567890123" = Some theirs
  /\ ("def4567890123"
        ∈ skipCommitShas
            (this (final (run world quiet
                            (handleChecksFailedEvent (checksFailed "def4567890123"))
                            0 start)))
      <-> ~ authoredBy me theirs).
Proof.
  apply (commit_cached_and_skipped_on_mismatch world quiet
           (checksFailed "def4567890123") 0 start selectedA pr42 me).
  - reflexivity.
  - reflexivity.
  - reflexivity.
  - evaluate.
Defined.

(** The amended C3 at the rejected commit of the sample world. *)
Lemma author_mismatch_skips_later_events_witness :
  "def4567890123"
    ∈ skipCommitShas
        (this (final (run world quiet
                        (handleChecksFailedEvent (checksFailed "def4567890123"))
                        0 start)))
  /\ trace (run world quiet
              (handleChecksFailedEvent (checksFailed "def4567890123")) 0
              (final (run world quiet
                        (handleChecksFailedEvent (checksFailed "def4567890123"))
                        0 start)))
     = [Called (getAllPullRequests selectedA); Called accountsStore_getAll].
Proof.
  destruct (author_mismatch_skips_later_events world quiet
              (checksFailed "def4567890123") 0 start selectedA pr42 me theirs)
    as [Hin Hlater].
  - reflexivity.
  - reflexivity.
  - reflexivity.
  - evaluate.
  - reflexivity.
  - evaluate.
  - split; [exact Hin|].
    destruct (Hlater world quiet (checksFailed "def4567890123") 0
                (final (run world quiet
                          (handleChecksFailedEvent (checksFailed "def4567890123"))
                          0 start)))
      as [Htrace _]; [reflexivity|done|].
    rewrite Htrace. reflexivity.
Defined.

(** C5 at the sample checks (one failure) and at a list without failures. *)
Lemma notification_iff_failed_check_witness :
  repository (this start) <> None
  /\ ((exists notification,
          Performed (show notification)
          ∈ trace (run world quiet
                     (postChecksFailedNotification pr42 sampleChecks
                        "abc1234567890" "Fix the build") 0 start))
      <-> 0 < numberOfFailedChecks sampleChecks).
Proof.
  split; [discriminate|].
  apply (notification_iff_failed_check world quiet pr42 sampleChecks
           "abc1234567890" "Fix the build" 0 start).
  discriminate.
Defined.

(** C6 at the SHA of the specification with one failed check, and at a
    list with two failed checks. *)
Lemma notification_title_and_body_witness :
  repository (this start) = Some selectedA
  /\ 0 < failureTally sampleChecks
  /\ (exists notification,
        trace (run world quiet
                 (postChecksFailedNotification pr42 sampleChecks
                    "abc1234567890" "Fix the build") 0 start)
        = [Performed (show notification)]
        /\ title notification = "Pull Request checks failed"
        /\ body notification
           = "Fix the build #42 (abc123456)"
             +:+ String (ascii_of_nat 10) EmptyString
             +:+ "1 check was not successful.")
  /\ (exists notification,
        trace (run world quiet
                 (postChecksFailedNotification pr42 twoFailures
                    "abc1234567890" "Fix the build") 0 start)
        = [Performed (show notification)]
        /\ body notification
           = "Fix the build #42 (abc123456)"
             +:+ String (ascii_of_nat 10) EmptyString
             +:+ "2 checks were not successful.").
Proof.
  split; [reflexivity|]. split; [vm_compute; lia|]. split.
  - destruct (notification_title_and_body world quiet pr42 sampleChecks
                "abc1234567890" "Fix the build" 0 start selectedA)
      as (notification & Htrace & Htitle & Hbody & _).
    + reflexivity.
    + vm_compute. lia.
    + exists notification. split; [exact Htrace|]. split; [exact Htitle|].
      rewrite Hbody. reflexivity.
  - destruct (notification_title_and_body world quiet pr42 twoFailures
                "abc1234567890" "Fix the build" 0 start selectedA)
      as (notification & Htrace & _ & Hbody & _).
    + reflexivity.
    + vm_compute. lia.
    + exists notification. split; [exact Htrace|].
      rewrite Hbody. reflexivity.
Defined.

(** C7 in the sample world. *)
Lemma statuses_before_check_runs_witness :
  accountFor world hello = Some me
  /\ statusesFor world me selectedA "fix-build" = Some [lint]
  /\ checkRunsFor world me selectedA "fix-build" = Some [build1; build2]
  /\ result (run world quiet (getChecksForRef selectedA "fix-build") 0 start)
     = Some sampleChecks.
Proof.
  split; [reflexivity|]. split; [reflexivity|]. split; [reflexivity|].
  destruct (statuses_before_check_runs world quiet selectedA "fix-build" 0 start
              me [lint] [build1; build2]) as [Hresult _].
  - reflexivity.
  - reflexivity.
  - reflexivity.
  - rewrite Hresult. reflexivity.
Defined.

(** C10 in the sample world: the user selects [repoB] while the
    pull-request list for the event of pull request 42 of [repoA] is
    fetched, and, in a second run, during the check fetch. *)
Lemma notification_shown_after_switch_witness :
  repository (this start) = Some selectedA
  /\ selectedB <> selectedA
  /\ selectionAtDispatch (switchDuringListFetch repoB) 0 (this start) selectedA
       me pr42 "abc1234567890" = Some selectedB
  /\ (exists notification,
        last (trace (run world (switchDuringListFetch repoB)
                       (handleChecksFailedEvent (checksFailed "abc1234567890"))
                       0 start))
        = Some (Performed (show notification))
        /\ onClick notification
           = {| arg_repository := selectedB;
                arg_pullRequest := pr42;
                arg_commitMessage := "Fix the build";
                arg_commitSha := "abc1234567890";
                arg_checkRuns := sampleChecks |})
  /\ (exists notification,
        last (trace (run world (switchDuringCheckFetch repoB)
                       (handleChecksFailedEvent (checksFailed "abc1234567890"))
                       0 start))
        = Some (Performed (show notification))
        /\ onClick notification
           = {| arg_repository := selectedB;
                arg_pullRequest := pr42;
                arg_commitMessage := "Fix the build";
                arg_commitSha := "abc1234567890";
                arg_checkRuns := sampleChecks |}).
Proof.
  split; [reflexivity|]. split; [discriminate|]. split; [reflexivity|]. split.
  - destruct (notification_shown_after_switch world (switchDuringListFetch repoB)
                (checksFailed "abc1234567890") 0 start selectedA pr42 me mine
                sampleChecks selectedB)
      as (_ & notification & Hlast & _ & Hclick & _).
    + reflexivity.
    + reflexivity.
    + reflexivity.
    + evaluate.
    + reflexivity.
    + evaluate.
    + reflexivity.
    + vm_compute. lia.
    + reflexivity.
    + exists notification. split; [exact Hlast|exact Hclick].
  - destruct (notification_shown_after_switch world (switchDuringCheckFetch repoB)
                (checksFailed "abc1234567890") 0 start selectedA pr42 me mine
                sampleChecks selectedB)
      as (_ & notification & Hlast & _ & Hclick & _).
    + reflexivity.
    + reflexivity.
    + reflexivity.
    + evaluate.
    + reflexivity.
    + evaluate.
    + reflexivity.
    + vm_compute. lia.
    + reflexivity.
    + exists notification. split; [exact Hlast|exact Hclick].
Defined.

(** C9 at an event of a kind the store does not know, which carries the
    fields of the notified checks-failed event. *)
Lemma other_events_are_ignored_witness :
  DesktopAliveEvent.type merged <> "pr-checks-failed"
  /\ run world (switchDuringCheckFetch repoB) (onAliveEventReceived merged) 0 start
     = {| result := tt; final := start; trace := []; suspensions := 0 |}.
Proof.
  split; [discriminate|].
  apply (other_events_are_ignored world (switchDuringCheckFetch repoB) merged
           0 start).
  discriminate.
Defined.

(** Two failed checks read "2 checks were". *)
Example plural_body :
  checksFailedBody "Fix the build" 42 "abc1234567890" 2
  = "Fix the build #42 (abc123456)" +:+ newline
    +:+ "2 checks were not successful.".
Proof. reflexivity. Qed.

(** §8: of two runs named "build", aggregation keeps the later one. *)
Example latest_build_is_kept :
  getLatestCheckRunsByName [build1; build2] = [build2].
Proof. reflexivity. Qed.

(** X1 at the notified event of the sample world. *)
Lemma notification_implies_qualifying_event_witness :
  Performed (show (checksFailedNotification selectedA pr42 sampleChecks
                     "abc1234567890" "Fix the build"))
    ∈ trace (run world quiet
               (handleChecksFailedEvent (checksFailed "abc1234567890")) 0 start)
  /\ exists r pr account commit checks r',
       repository (this start) = Some r
       /\ pullRequestFor world r (checksFailed "abc1234567890") = Some pr
       /\ authoredBy account commit
       /\ 0 < numberOfFailedChecks checks
       /\ checksFailedNotification selectedA pr42 sampleChecks
            "abc1234567890" "Fix the build"
          = checksFailedNotification r' pr checks "abc1234567890"
              (Commit.summary commit).
Proof.
  assert (Performed (show (checksFailedNotification selectedA pr42 sampleChecks
                             "abc1234567890" "Fix the build"))
            ∈ trace (run world quiet
                       (handleChecksFailedEvent (checksFailed "abc1234567890"))
                       0 start)) as Hshown.
  { apply list_elem_of_In. vm_compute. tauto. }
  split; [exact Hshown|].
  destruct (notification_implies_qualifying_event world quiet
              (checksFailed "abc1234567890") 0 start _ Hshown)
    as (r & pr & account & commit & checks & r'
        & Hr & Hpr & _ & _ & _ & Hauth & _ & Hfailed & Heq).
  exists r, pr, account, commit, checks, r'. repeat split; assumption.
Defined.

(** X5: the user selects the repository without a remote while the
    pull-request list of the notified event is fetched. *)
Lemma deselection_suppresses_notification_witness :
  repository
    (this (final (run world (switchDuringListFetch repoLocal)
                    (handleChecksFailedEvent (checksFailed "abc1234567890"))
                    0 start)))
  = None
  /\ shownIn (trace (run world (switchDuringListFetch repoLocal)
                       (handleChecksFailedEvent (checksFailed "abc1234567890"))
                       0 start))
     = [].
Proof.
  split; [by vm_compute|].
  apply (deselection_suppresses_notification world
           (switchDuringListFetch repoLocal) (checksFailed "abc1234567890")
           0 start).
  by vm_compute.
Defined.

(** X6 at the notified event of the sample world, whose commit is not
    cached. *)
Lemma qualifying_event_is_notified_witness :
  trace (run world quiet
           (handleChecksFailedEvent (checksFailed "abc1234567890")) 0 start)
  = [Called (getAllPullRequests selectedA);
     Called accountsStore_getAll;
     Called (getCommit selectedA "abc1234567890");
     Called accountsStore_getAll;
     Called (checkFetch me selectedA "fix-build");
     Performed (show (checksFailedNotification selectedA pr42 sampleChecks
                        "abc1234567890" "Fix the build"))].
Proof.
  apply (qualifying_event_is_notified world (checksFailed "abc1234567890") 0
           start selectedA pr42 me mine sampleChecks).
  - reflexivity.
  - reflexivity.
  - reflexivity.
  - evaluate.
  - reflexivity.
  - evaluate.
  - reflexivity.
Defined.

(** X7: the notified event of the sample world, twice. *)
Lemma resolved_commit_is_not_fetched_again_witness :
  Forall (fun l => ~ isCommitFetch l)
    (trace (run world quiet
              (handleChecksFailedEvent (checksFailed "abc1234567890")) 0
              (final (run world quiet
                        (handleChecksFailedEvent (checksFailed "abc1234567890"))
                        0 start)))).
Proof.
  apply (resolved_commit_is_not_fetched_again world quiet
           (checksFailed "abc1234567890") 0 start selectedA pr42 me mine).
  - reflexivity.
  - reflexivity.
  - reflexivity.
  - evaluate.
  - reflexivity.
  - reflexivity.
  - reflexivity.
Defined.

(** X8 at a SHA the sample world has no commit for. *)
Lemma unresolvable_commit_is_skipped_witness :
  resolvedCommit world (this start) selectedA "0000000" = None
  /\ trace (run world quiet (handleChecksFailedEvent (checksFailed "0000000"))
              0 start)
     = [Called (getAllPullRequests selectedA); Called accountsStore_getAll;
        Called (getCommit selectedA "0000000")]
  /\ skipCommitShas
       (this (final (run world quiet
                       (handleChecksFailedEvent (checksFailed "0000000"))
                       0 start)))
     = {["0000000"]} ∪ skipCommitShas (this start).
Proof.
  split; [reflexivity|].
  destruct (unresolvable_commit_is_skipped world quiet (checksFailed "0000000")
              0 start selectedA pr42 me) as (Htrace & _ & Hskip).
  - reflexivity.
  - reflexivity.
  - reflexivity.
  - evaluate.
  - reflexivity.
  - split; [exact Htrace|exact Hskip].
Defined.

(** X9 at a pull request the selected repository does not have. *)
Lemma unattributed_event_is_dropped_witness :
  pullRequestFor world selectedA
    {| pull_request_number := 7; commit_sha := "abc1234567890" |} = None
  /\ trace (run world quiet
              (handleChecksFailedEvent
                 {| pull_request_number := 7; commit_sha := "abc1234567890" |})
              0 start)
     = [Called (getAllPullRequests selectedA)].
Proof.
  split; [reflexivity|].
  destruct (unattributed_event_is_dropped world quiet
              {| pull_request_number := 7; commit_sha := "abc1234567890" |}
              0 start selectedA) as (Htrace & _ & _).
  - reflexivity.
  - left. reflexivity.
  - exact Htrace.
Defined.

(** X10 after the repository without a remote has been selected. *)
Lemma events_are_ignored_without_github_repository_witness :
  isRepositoryWithGitHubRepository repoLocal = None
  /\ trace (run world quiet
              (handleChecksFailedEvent (checksFailed "abc1234567890")) 0
              {| this := selectRepository repoLocal (this start);
                 localStorage := ∅ |})
     = [].
Proof.
  split; [reflexivity|].
  destruct (events_are_ignored_without_github_repository world quiet
              (checksFailed "abc1234567890") 0 (this start) ∅ repoLocal)
    as [Hrun _].
  - reflexivity.
  - rewrite Hrun. reflexivity.
Defined.

(** X13 when the user selects [repoB] during the check fetch. *)
Lemma fetches_are_for_the_repository_at_arrival_witness :
  repository (this start) = Some selectedA
  /\ Forall
       (fun c =>
          c = getAllPullRequests selectedA
          \/ c = accountsStore_getAll
          \/ c = getCommit selectedA "abc1234567890"
          \/ exists account pr,
               accountFor world hello = Some account
               /\ pullRequestFor world selectedA (checksFailed "abc1234567890")
                  = Some pr
               /\ c = checkFetch account selectedA
                        (PullRequest.ref (PullRequest.head pr)))
       (callsOf (trace (run world (switchDuringCheckFetch repoB)
                          (handleChecksFailedEvent (checksFailed "abc1234567890"))
                          0 start))).
Proof.
  split; [reflexivity|].
  apply (fetches_are_for_the_repository_at_arrival world
           (switchDuringCheckFetch repoB) (checksFailed "abc1234567890") 0 start
           selectedA).
  reflexivity.
Defined.

(** X20 in a store in which nothing has been selected yet. *)
Lemma nothing_is_posted_without_selection_witness :
  repository newStore = None
  /\ run world quiet
       (postChecksFailedNotification pr42 sampleChecks "abc1234567890"
          "Fix the build") 0
       {| this := newStore; localStorage := ∅ |}
     = {| result := tt; final := {| this := newStore; localStorage := ∅ |};
          trace := []; suspensions := 0 |}.
Proof.
  split; [reflexivity|].
  apply (nothing_is_posted_without_selection world quiet pr42 sampleChecks
           "abc1234567890" "Fix the build" 0
           {| this := newStore; localStorage := ∅ |}).
  reflexivity.
Defined.

End Runs.
